(** * acloud: creation, provisioning and deletion of virtual Android devices

    A shallow embedding of the parts of acloud that its specification
    makes statements about:

    - [create_common]: [ParseHWPropertyArgs];
    - [remote_image_local_instance]: the download-directory confirmation
      loop and the download / unpack / ACL pipeline;
    - [cvd_compute_client]: [_GetDiskArgs] and [CreateInstance];
    - [ssh] and [delete]: [GetBaseCmd] and [DeleteLocalGoldfishInstance],
      whose sources are not at hand and which are modelled from the
      specification and from their unit tests.

    Python values are modelled as follows: [str] as [string], [int] as [Z],
    [dict] with string keys as [gmap string _], [None]-able arguments as
    [option], exceptions as the constructors of [Exception], and a call that
    may raise as a [Result].  Code with side effects threads an explicit
    world (file system and a log of the external calls, in call order). *)

From stdpp Require Import gmap strings list pretty.
From Stdlib Require Import ZArith Ascii String.

Open Scope string_scope.
Open Scope Z_scope.

(** ** Python exceptions and results *)

Inductive Exception : Type :=
  | MalformedDictStringError (msg : string)
  | CheckPathError (msg : string)
  | BootImgDoesNotExist (msg : string)
  | UnpackBootImageError (msg : string)
  | CalledProcessError (returncode : Z) (cmd : string)
  | ValueError
  | TypeError
  | IndexError
  | OSError
  | EOFError
  | SystemExit
  | ExternalError (origin : string).

Inductive Result (A : Type) : Type :=
  | Ok (a : A)
  | Raise (e : Exception).
Arguments Ok {A} a.
Arguments Raise {A} e.

Definition bind {A B : Type} (r : Result A) (k : A -> Result B) : Result B :=
  match r with
  | Ok a => k a
  | Raise e => Raise e
  end.

Notation "x <- r ;; k" := (bind r (fun x => k))
  (at level 100, r at next level, k at level 200, right associativity).

(** ** Python string operations *)

Module pystr.

(** [sep in s], for a one-character [sep]. *)
Fixpoint contains (sep : ascii) (s : string) : bool :=
  match s with
  | EmptyString => false
  | String c s' => if Ascii.eqb c sep then true else contains sep s'
  end.

(** Number of occurrences of [sep] in [s]. *)
Fixpoint count (sep : ascii) (s : string) : nat :=
  match s with
  | EmptyString => O
  | String c s' => if Ascii.eqb c sep then S (count sep s') else count sep s'
  end.

(** [s.split(sep)] for a one-character [sep]: never the empty list, and
    [""] splits into [[""]]. *)
Fixpoint split (sep : ascii) (s : string) : list string :=
  match s with
  | EmptyString => [EmptyString]
  | String c s' =>
      if Ascii.eqb c sep then EmptyString :: split sep s'
      else match split sep s' with
           | [] => [String c EmptyString]
           | h :: t => String c h :: t
           end
  end.

(** [sep.join(l)]. *)
Fixpoint join (sep : string) (l : list string) : string :=
  match l with
  | [] => EmptyString
  | [s] => s
  | s :: l' => s ++ sep ++ join sep l'
  end.

(** The characters [str.strip()] removes: space, \t, \n, \v, \f, \r. *)
Definition isspace (c : ascii) : bool :=
  let n := nat_of_ascii c in
  (Nat.eqb n 32 || (Nat.leb 9 n && Nat.leb n 13))%bool.

Fixpoint lstrip (s : string) : string :=
  match s with
  | EmptyString => EmptyString
  | String c s' => if isspace c then lstrip s' else s
  end.

Fixpoint rstrip (s : string) : string :=
  match s with
  | EmptyString => EmptyString
  | String c s' =>
      match rstrip s' with
      | EmptyString => if isspace c then EmptyString else String c EmptyString
      | r => String c r
      end
  end.

Definition strip (s : string) : string := rstrip (lstrip s).

(** [s.lower()] on ASCII letters. *)
Definition lower_ascii (c : ascii) : ascii :=
  let n := nat_of_ascii c in
  if (Nat.leb 65 n && Nat.leb n 90)%bool then ascii_of_nat (n + 32) else c.

Fixpoint lower (s : string) : string :=
  match s with
  | EmptyString => EmptyString
  | String c s' => String (lower_ascii c) (lower s')
  end.

(** [s.startswith(c)] and [s.endswith(c)] for a one-character [c]. *)
Definition startswith (c : ascii) (s : string) : bool :=
  match s with
  | EmptyString => false
  | String a _ => Ascii.eqb a c
  end.

Fixpoint endswith (c : ascii) (s : string) : bool :=
  match s with
  | EmptyString => false
  | String a EmptyString => Ascii.eqb a c
  | String _ s' => endswith c s'
  end.

(** Truth value of a string: [not s] holds of the empty string only. *)
Definition is_empty (s : string) : bool :=
  match s with
  | EmptyString => true
  | String _ _ => false
  end.

(** [int(s)] on a decimal literal: surrounding white space and one sign
    are accepted, anything else is a [ValueError]. *)
Definition digit (c : ascii) : option Z :=
  let n := nat_of_ascii c in
  if (Nat.leb 48 n && Nat.leb n 57)%bool then Some (Z.of_nat (n - 48)) else None.

Fixpoint digits (acc : Z) (s : string) : option Z :=
  match s with
  | EmptyString => Some acc
  | String c s' =>
      match digit c with
      | Some d => digits (10 * acc + d) s'
      | None => None
      end
  end.

Definition unsigned (s : string) : option Z :=
  match s with
  | EmptyString => None
  | _ => digits 0 s
  end.

Definition int (s : string) : Result Z :=
  let parsed :=
    match strip s with
    | String "-" s' => Z.opp <$> unsigned s'
    | String "+" s' => unsigned s'
    | s' => unsigned s'
    end in
  match parsed with
  | Some n => Ok n
  | None => Raise ValueError
  end.

(** [str(n)] for an integer. *)
Definition str (n : Z) : string := pretty n.

End pystr.

(** ** posixpath *)

Module os_path.

(** [os.path.join(a, b)]: an absolute [b] discards [a]. *)
Definition join2 (path b : string) : string :=
  if pystr.startswith "/" b then b
  else if (pystr.is_empty path || pystr.endswith "/" path)%bool then path ++ b
  else path ++ "/" ++ b.

(** [os.path.join(a, *p)]. *)
Definition join (a : string) (p : list string) : string :=
  fold_left join2 p a.

End os_path.

(** ** acloud/create/create_common.py *)

Module create_common.

(** The body of the [for item in ...] loop of [ParseHWPropertyArgs]. *)
Definition ParseHWPropertyArgs_item (key_value_separator : ascii)
    (hw_dict : gmap string string) (item : string)
  : Result (gmap string string) :=
  if negb (pystr.contains key_value_separator item) then
    Raise (MalformedDictStringError
             ("Expecting ':' in '" ++ item ++ "' to make a key-val pair"))
  else
    match pystr.split key_value_separator item with
    | [key; value] =>
        if (pystr.is_empty value || pystr.is_empty key)%bool then
          Raise (MalformedDictStringError
                   ("Missing key or value in " ++ item ++
                    ", expecting form of 'a:b'"))
        else Ok (<[pystr.strip key := pystr.strip value]> hw_dict)
    | _ => Raise ValueError   (* key, value = ...: wrong number of values *)
    end.

Fixpoint ParseHWPropertyArgs_loop (key_value_separator : ascii)
    (hw_dict : gmap string string) (items : list string)
  : Result (gmap string string) :=
  match items with
  | [] => Ok hw_dict
  | item :: items' =>
      hw_dict' <- ParseHWPropertyArgs_item key_value_separator hw_dict item ;;
      ParseHWPropertyArgs_loop key_value_separator hw_dict' items'
  end.

(** The items the loop iterates over: none for the empty string, which the
    function returns on at once. *)
Definition items_of (item_separator : ascii) (dict_str : string) : list string :=
  if pystr.is_empty dict_str then [] else pystr.split item_separator dict_str.

(** [ParseHWPropertyArgs(dict_str, item_separator=",",
    key_value_separator=":")]; the separators are single characters, as the
    docstring has them. *)
Definition ParseHWPropertyArgs (dict_str : string)
    (item_separator key_value_separator : ascii)
  : Result (gmap string string) :=
  let hw_dict : gmap string string := ∅ in
  if pystr.is_empty dict_str then Ok hw_dict
  else ParseHWPropertyArgs_loop key_value_separator hw_dict
         (pystr.split item_separator dict_str).

(** An item with no separator, or of the form [key:value] with an empty
    key or value. *)
Definition lacks_separator_or_part (sep : ascii) (item : string) : bool :=
  (negb (pystr.contains sep item)
   || match pystr.split sep item with
      | [key; value] => pystr.is_empty key || pystr.is_empty value
      | _ => false
      end)%bool.

(** An item with two or more separators. *)
Definition many_separators (sep : ascii) (item : string) : bool :=
  Nat.leb 2 (pystr.count sep item).

(** An item the loop accepts: one separator, key and value not empty. *)
Definition accepted (sep : ascii) (item : string) : bool :=
  (negb (lacks_separator_or_part sep item)
   && negb (many_separators sep item))%bool.

End create_common.

(** ** acloud/create/remote_image_local_instance.py *)

Module remote_image_local_instance.

(** *** The world the module acts on *)

Inductive Kind : Type := File | Dir.

(** The two questions [utils.InteractWithQuestion] is asked. *)
Inductive Question : Type :=
  | NoSuchDirectory (download_dir : string)
  | NotEnoughSpace (download_dir : string) (available_space required_space : Z).

(** The calls that leave the process, in the order they are made. *)
Inductive Event : Type :=
  | Asked (question : Question)
  | Printed (msg : string)
  | Makedirs (path : string)
  | CreateClient
  | DownloadArtifact (build_target build_id artifact dest : string)
  | Decompress (sourcefile dest : string)
  | Remove (path : string)
  | CheckCall (cmd : string).

Record World : Type := {
  files : gmap string Kind;     (* the paths that exist *)
  stdin : list string;          (* the answers the user is still to give *)
  log : list Event
}.

Record statvfs_result : Type := { f_bsize : Z; f_bavail : Z }.

(** What the environment decides: the user's home ([expanduser]), the file
    system statistics, whether a directory may be created, whether the
    build client can be set up and an artifact downloaded, what an archive
    holds, what a shell command exits with and which files the boot image
    unpacker writes.  The external tools add files and remove none; the one
    removal is that of [os.remove]. *)
Record Env : Type := {
  expanduser : string -> string;
  statvfs_of : string -> statvfs_result;
  makedirs_denied : string -> bool;
  credentials_ok : bool;
  download_fails : string -> string -> string -> bool;
  archive_members : string -> option (list string);
  returncode : string -> Z;
  unpacked_names : list string
}.

Definition M (A : Type) : Type := World -> Result A * World.

Definition ret {A : Type} (a : A) : M A := fun w => (Ok a, w).

Definition raise {A : Type} (e : Exception) : M A := fun w => (Raise e, w).

Definition mbind {A B : Type} (m : M A) (k : A -> M B) : M B :=
  fun w =>
    match m w with
    | (Ok a, w') => k a w'
    | (Raise e, w') => (Raise e, w')
    end.

Notation "x <~ m ;; k" := (mbind m (fun x => k))
  (at level 100, m at next level, k at level 200, right associativity).

Definition record (ev : Event) : M unit :=
  fun w => (Ok tt, {| files := files w; stdin := stdin w; log := (log w ++ [ev])%list |}).

Definition set_files (f : gmap string Kind -> gmap string Kind) : M unit :=
  fun w => (Ok tt, {| files := f (files w); stdin := stdin w; log := log w |}).

Definition new_files (paths : list string) : gmap string Kind :=
  list_to_map ((fun p => (p, File)) <$> paths).

(** [for x in l: body(x)] *)
Fixpoint for_each {A : Type} (l : list A) (body : A -> M unit) : M unit :=
  match l with
  | [] => ret tt
  | x :: l' => _ <~ body x ;; for_each l' body
  end.

(** [os.path.exists] *)
Definition os_path_exists (path : string) : M bool :=
  fun w =>
    (Ok match files w !! path with Some _ => true | None => false end, w).

(** [os.makedirs]: fails when the leaf exists or may not be created. *)
Definition os_makedirs (env : Env) (path : string) : M unit :=
  _ <~ record (Makedirs path) ;;
  present <~ os_path_exists path ;;
  if (present || makedirs_denied env path)%bool then raise OSError
  else set_files (fun fs => <[path := Dir]> fs).

(** [os.remove]: removes a file, fails on a directory or a missing path. *)
Definition os_remove (path : string) : M unit :=
  _ <~ record (Remove path) ;;
  fun w =>
    match files w !! path with
    | Some File => set_files (delete path) w
    | _ => (Raise OSError, w)
    end.

(** [os.statvfs] *)
Definition os_statvfs (env : Env) (path : string) : M statvfs_result :=
  present <~ os_path_exists path ;;
  if present then ret (statvfs_of env path) else raise OSError.

(** Modelled from the spec: [utils.InteractWithQuestion], of which only the
    calls are at hand; it prompts the user with the question and hands back
    the next answer; reading past the end of the input is an [EOFError]. *)
Definition InteractWithQuestion (question : Question) : M string :=
  _ <~ record (Asked question) ;;
  fun w =>
    match stdin w with
    | [] => (Raise EOFError, w)
    | answer :: rest =>
        (Ok answer, {| files := files w; stdin := rest; log := log w |})
    end.

Definition print (msg : string) : M unit := record (Printed msg).

(** [sys.exit()] *)
Definition sys_exit {A : Type} : M A := raise SystemExit.

(** [subprocess.check_call(cmd, shell=True)] *)
Definition subprocess_check_call (env : Env) (cmd : string) : M Z :=
  _ <~ record (CheckCall cmd) ;;
  let rc := returncode env cmd in
  if rc =? 0 then ret 0 else raise (CalledProcessError rc cmd).

(** [str(e)] of a [CalledProcessError] *)
Definition str_CalledProcessError (rc : Z) (cmd : string) : string :=
  "Command '" ++ cmd ++ "' returned non-zero exit status " ++ pystr.str rc.

(** Modelled from the spec:
    [android_build_client.AndroidBuildClient(auth.CreateCredentials(cfg))],
    the set-up of the Artifact Repository client, which may fail. *)
Definition AndroidBuildClient (env : Env) : M unit :=
  _ <~ record CreateClient ;;
  if credentials_ok env then ret tt else raise (ExternalError "auth").

(** Modelled from the spec: [build_client.DownloadArtifact(buildTarget,
    buildId, artifactName, destPath)] of section 6; it writes [dest] unless
    it fails, and a failure is fatal. *)
Definition build_client_DownloadArtifact (env : Env)
    (build_target build_id artifact dest : string) : M unit :=
  _ <~ record (DownloadArtifact build_target build_id artifact dest) ;;
  if download_fails env build_target build_id artifact
  then raise (ExternalError "DownloadArtifact")
  else set_files (fun fs => fs ∪ new_files [dest]).

(** Modelled from the spec: [utils.Decompress], which decompresses the
    archive into [dest] (section 4.2): it writes the members of the archive
    below [dest] unless it fails. *)
Definition utils_Decompress (env : Env) (sourcefile dest : string) : M unit :=
  _ <~ record (Decompress sourcefile dest) ;;
  match archive_members env sourcefile with
  | None => raise (ExternalError "Decompress")
  | Some members =>
      set_files (fun fs =>
        fs ∪ new_files ((fun m => os_path.join dest [m]) <$> members))
  end.

(** *** Module constants *)

Definition _CVD_HOST_PACKAGE : string := "cvd-host_package.tar.gz".
Definition _CUTTLEFISH_COMMON_BIN_PATH : string := "/usr/lib/cuttlefish-common/bin/".
Definition _REQUIRED_SPACE : Z := 10.
Definition _CF_IMAGES : list string :=
  ["cache.img"; "cmdline"; "kernel"; "ramdisk.img"; "system.img";
   "userdata.img"; "vendor.img"].
Definition _BOOT_IMAGE : string := "boot.img".

(** [UNPACK_BOOTIMG_CMD % (bootimg_path, extract_path)] *)
Definition UNPACK_BOOTIMG_CMD (bootimg_path extract_path : string) : string :=
  os_path.join _CUTTLEFISH_COMMON_BIN_PATH ["unpack_boot_image.py"]
    ++ " -boot_img " ++ bootimg_path ++ " -dest " ++ extract_path.

(** [ACL_CMD % image_path] *)
Definition ACL_CMD (image_path : string) : string :=
  "setfacl -m g:libvirt-qemu:rw " ++ image_path.

(** *** RemoteImageLocalInstance *)

Record RemoteImage : Type := {
  build_id : string;
  build_target : string
}.

(** The fields of [avd_spec] that are read; [avd_spec.cfg] only flows into
    [auth.CreateCredentials], whose outcome the environment decides. *)
Record AVDSpec : Type := {
  image_download_dir : string;
  remote_image : RemoteImage
}.

Definition _DownloadRemoteImage (env : Env)
    (build_target build_id extract_path : string) : M unit :=
  let remote_image :=
    hd "" (pystr.split "-" build_target) ++ "-img-" ++ build_id ++ ".zip" in
  let artifacts := [_CVD_HOST_PACKAGE; remote_image] in
  _ <~ AndroidBuildClient env ;;
  for_each artifacts (fun artifact =>
    let temp_filename := os_path.join extract_path [artifact] in
    _ <~ build_client_DownloadArtifact env build_target build_id artifact
           temp_filename ;;
    _ <~ utils_Decompress env temp_filename extract_path ;;
    (* try: os.remove(temp_filename) except OSError: logger.error(...) *)
    fun w =>
      match os_remove temp_filename w with
      | (Raise OSError, w') => (Ok tt, w')
      | other => other
      end).

Definition _UnpackBootImage (env : Env) (extract_path : string) : M unit :=
  let bootimg_path := os_path.join extract_path [_BOOT_IMAGE] in
  present <~ os_path_exists bootimg_path ;;
  if negb present then
    raise (BootImgDoesNotExist
             (_BOOT_IMAGE ++ " does not exist in " ++ bootimg_path))
  else
    fun w =>
      match subprocess_check_call env
              (UNPACK_BOOTIMG_CMD bootimg_path extract_path) w with
      | (Raise (CalledProcessError rc cmd), w') =>
          (Raise (UnpackBootImageError
                    ("Failed to unpack boot.img: "
                     ++ str_CalledProcessError rc cmd)), w')
      | (Raise e, w') => (Raise e, w')
      | (Ok _, w') =>
          set_files (fun fs =>
            fs ∪ new_files ((fun n => os_path.join extract_path [n])
                              <$> unpacked_names env)) w'
      end.

(** The body of the [for image in _CF_IMAGES] loop. *)
Definition _AclCfImageFiles_image (env : Env) (extract_path image : string)
  : M unit :=
  let image_path := os_path.join extract_path [image] in
  present <~ os_path_exists image_path ;;
  if negb present then
    raise (CheckPathError ("Specified file doesn't exist: " ++ image_path))
  else
    _ <~ subprocess_check_call env (ACL_CMD image_path) ;;
    ret tt.

Definition _AclCfImageFiles (env : Env) (extract_path : string) : M unit :=
  for_each _CF_IMAGES (_AclCfImageFiles_image env extract_path).

Definition extract_path_of (avd_spec : AVDSpec) : string :=
  os_path.join (image_download_dir avd_spec)
    ["acloud_image_artifacts"; build_id (remote_image avd_spec)].

Definition _DownloadAndProcessImageFiles (env : Env) (avd_spec : AVDSpec)
  : M string :=
  let build_id := build_id (remote_image avd_spec) in
  let build_target := build_target (remote_image avd_spec) in
  let extract_path := extract_path_of avd_spec in
  present <~ os_path_exists extract_path ;;
  _ <~ (if negb present then
          _ <~ os_makedirs env extract_path ;;
          _ <~ _DownloadRemoteImage env build_target build_id extract_path ;;
          _ <~ _UnpackBootImage env extract_path ;;
          _AclCfImageFiles env extract_path
        else ret tt) ;;
  ret extract_path.

(** What one pass through the [while True] loop of
    [_ConfirmDownloadRemoteImageDir] ends in. *)
Inductive Flow : Type :=
  | Return (download_dir : string)
  | Continue (download_dir : string).

Definition available_space_of (stat : statvfs_result) : Z :=
  f_bavail stat * f_bsize stat / 1024 ^ 3.

Definition _ConfirmDownloadRemoteImageDir_body (env : Env)
    (download_dir : string) : M Flow :=
  let download_dir := expanduser env download_dir in
  present <~ os_path_exists download_dir ;;
  _ <~ (if negb present then
          answer <~ InteractWithQuestion (NoSuchDirectory download_dir) ;;
          if String.eqb (pystr.lower answer) "y" then
            os_makedirs env download_dir
          else
            _ <~ print "Exiting acloud!" ;;
            sys_exit
        else ret tt) ;;
  stat <~ os_statvfs env download_dir ;;
  let available_space := available_space_of stat in
  if available_space <? _REQUIRED_SPACE then
    download_dir' <~ InteractWithQuestion
                       (NotEnoughSpace download_dir available_space
                          _REQUIRED_SPACE) ;;
    if String.eqb (pystr.lower download_dir') "q" then
      _ <~ print "Exiting acloud!" ;;
      sys_exit
    else ret (Continue download_dir')
  else ret (Return download_dir).

(** The loop, with a bound on the number of passes; [None] when the bound
    is reached. *)
Fixpoint _ConfirmDownloadRemoteImageDir_loop (fuel : nat) (env : Env)
    (download_dir : string) (w : World) : option (Result string * World) :=
  match fuel with
  | O => None
  | S fuel' =>
      match _ConfirmDownloadRemoteImageDir_body env download_dir w with
      | (Raise e, w') => Some (Raise e, w')
      | (Ok (Return d), w') => Some (Ok d, w')
      | (Ok (Continue d), w') =>
          _ConfirmDownloadRemoteImageDir_loop fuel' env d w'
      end
  end.

(** Every pass that goes round again takes an answer from the input, so
    one pass more than there are answers is enough. *)
Definition _ConfirmDownloadRemoteImageDir (env : Env) (download_dir : string)
    (w : World) : option (Result string * World) :=
  _ConfirmDownloadRemoteImageDir_loop (S (List.length (stdin w))) env download_dir w.

(** [w] with [events] added to its log. *)
Definition with_log (w : World) (events : list Event) : World :=
  {| files := files w; stdin := stdin w; log := (log w ++ events)%list |}.

(** The ACL commands issued for [images], in order. *)
Definition acl_calls (extract_path : string) (images : list string)
  : list Event :=
  (fun image => CheckCall (ACL_CMD (os_path.join extract_path [image])))
    <$> images.

(** [m] leaves the directories that exist in place. *)
Definition keeps_dirs {A : Type} (m : M A) : Prop :=
  forall w r w', m w = (r, w') ->
    forall p, files w !! p = Some Dir -> files w' !! p = Some Dir.

(** The download directory has the space the download needs. *)
Definition enough_space (env : Env) (download_dir : string) : Prop :=
  _REQUIRED_SPACE <= available_space_of (statvfs_of env download_dir).

(** The exceptions that leave [_ConfirmDownloadRemoteImageDir]: that of
    [sys.exit()], the end of the user's input, and a failure of
    [os.makedirs] or [os.statvfs].  None is caught; each ends the process. *)
Definition ends_process (e : Exception) : Prop :=
  e = SystemExit \/ e = EOFError \/ e = OSError.

(** *** Sample environments and worlds *)

(** A host on which every external call succeeds; only [/big] has room. *)
Definition env_fine : Env :=
  {| expanduser := fun path => path;
     statvfs_of := fun path =>
       if String.eqb path "/big"
       then {| f_bsize := 4096; f_bavail := 10000000 |}
       else {| f_bsize := 4096; f_bavail := 1000 |};
     makedirs_denied := fun _ => false;
     credentials_ok := true;
     download_fails := fun _ _ _ => false;
     archive_members := fun sourcefile =>
       if pystr.endswith "p" sourcefile
       then Some ["boot.img"; "cache.img"; "system.img"; "userdata.img";
                  "vendor.img"]
       else Some ["bin/launch_cvd"];
     returncode := fun _ => 0;
     unpacked_names := ["kernel"; "ramdisk.img"; "cmdline"] |}.

(** The same host, but every shell command exits with status 1. *)
Definition env_commands_fail : Env :=
  {| expanduser := expanduser env_fine;
     statvfs_of := statvfs_of env_fine;
     makedirs_denied := makedirs_denied env_fine;
     credentials_ok := true;
     download_fails := download_fails env_fine;
     archive_members := archive_members env_fine;
     returncode := fun _ => 1;
     unpacked_names := unpacked_names env_fine |}.

(** A host on which no artifact can be downloaded. *)
Definition env_download_fails : Env :=
  {| expanduser := expanduser env_fine;
     statvfs_of := statvfs_of env_fine;
     makedirs_denied := makedirs_denied env_fine;
     credentials_ok := true;
     download_fails := fun _ _ _ => true;
     archive_members := archive_members env_fine;
     returncode := returncode env_fine;
     unpacked_names := unpacked_names env_fine |}.

(** [/small] exists; the user will answer [/big] and then [Y]. *)
Definition world_small : World :=
  {| files := {[ "/small" := Dir ]}; stdin := ["/big"; "Y"]; log := [] |}.

(** [/big] exists and is empty. *)
Definition world_big : World :=
  {| files := {[ "/big" := Dir ]}; stdin := []; log := [] |}.

(** An extraction directory [/d] that holds [cache.img] and [cmdline]. *)
Definition world_partial : World :=
  {| files := {[ "/d" := Dir; "/d/cache.img" := File; "/d/cmdline" := File ]};
     stdin := [];
     log := [] |}.

Definition avd_spec_5046769 : AVDSpec :=
  {| image_download_dir := "/big";
     remote_image := {| build_id := "5046769";
                        build_target := "aosp_cf_x86_phone-userdebug" |} |}.

End remote_image_local_instance.

(** ** acloud/internal/lib/cvd_compute_client.py *)

Module cvd_compute_client.

(** The fields read of what [GetImage] returns. *)
Record Image : Type := {
  selfLink : string;
  diskSizeGb : string
}.

Record InitializeParams : Type := {
  diskName : string;
  sourceImage : string;
  init_diskSizeGb : Z
}.

(** One entry of the [disk_args] list. *)
Record DiskArgs : Type := {
  type : string;
  boot : bool;
  mode : string;
  autoDelete : bool;
  initializeParams : InitializeParams
}.

(** The keyword arguments of [gcompute_client.ComputeClient.CreateInstance]. *)
Record Request : Type := {
  req_instance : string;
  req_image_name : string;
  req_image_project : option string;
  req_disk_args : list DiskArgs;
  req_metadata : gmap string string;
  req_machine_type : string;
  req_network : string;
  req_zone : string
}.

(** The attributes of [self] that [CreateInstance] reads. *)
Record CvdComputeClient : Type := {
  _metadata : gmap string string;
  _resolution : string;
  _ssh_public_key_path : option string;
  _machine_type : string;
  _network : string;
  _zone : string
}.

(** The inherited methods and the host: the machine size check, the image
    lookup, the key file, the local user and the backend's answer to a
    creation request. *)
Record Env : Type := {
  _CheckMachineSize : Result unit;
  GetImage : string -> option string -> Result Image;
  _LoadSshPublicKey : string -> Result string;
  getuser : string;
  ComputeClient_CreateInstance : Request -> Result unit
}.

Definition DATA_POLICY_CREATE_IF_MISSING : string := "create_if_missing".

(** Truth value of an optional string: [None] and [""] are false. *)
Definition truthy (s : option string) : bool :=
  match s with
  | Some s' => negb (pystr.is_empty s')
  | None => false
  end.

(** [n + x], [x > 0] and [x * n] for an [x] that is an integer or [None]
    (Python 2 orders [None] below every integer). *)
Definition add_int (n : Z) (x : option Z) : Result Z :=
  match x with
  | Some i => Ok (n + i)
  | None => Raise TypeError
  end.

Definition gt_zero (x : option Z) : bool :=
  match x with
  | Some i => 0 <? i
  | None => false
  end.

Definition mul_int (x : option Z) (n : Z) : Result Z :=
  match x with
  | Some i => Ok (i * n)
  | None => Raise TypeError
  end.

(** [l[i]] *)
Definition getitem (l : list string) (i : nat) : Result string :=
  match l !! i with
  | Some x => Ok x
  | None => Raise IndexError
  end.

Definition _GetDiskArgs (env : Env)
    (disk_name image_name : string) (image_project : option string)
    (disk_size_gb : Z) : Result (list DiskArgs) :=
  image <- GetImage env image_name image_project ;;
  Ok [ {| type := "PERSISTENT";
          boot := true;
          mode := "READ_WRITE";
          autoDelete := true;
          initializeParams :=
            {| diskName := disk_name;
               sourceImage := selfLink image;
               init_diskSizeGb := disk_size_gb |} |} ].

(** [CreateInstance]; the second component lists the creation requests
    submitted to the backend, none when an exception is raised earlier. *)
Definition CreateInstance (env : Env) (self : CvdComputeClient)
    (instance image_name : string) (image_project : option string)
    (build_target branch build_id : string)
    (kernel_branch kernel_build_id : option string)
    (blank_data_disk_size_gb : option Z)
  : Result unit * list Request :=
  let prepared : Result Request :=
    _ <- _CheckMachineSize env ;;
    image <- GetImage env image_name image_project ;;
    base_size <- pystr.int (diskSizeGb image) ;;
    boot_disk_size_gb <- add_int base_size blank_data_disk_size_gb ;;
    disk_args <- _GetDiskArgs env instance image_name image_project
                   boot_disk_size_gb ;;
    let metadata := _metadata self in
    let resolution := pystr.split "x" (_resolution self) in
    dpi <- getitem resolution 3 ;;
    let metadata := <["cvd_01_dpi" := dpi]> metadata in
    let metadata := <["cvd_01_fetch_android_build_target" := build_target]> metadata in
    let metadata :=
      <["cvd_01_fetch_android_bid" := branch ++ "/" ++ build_id]> metadata in
    let metadata :=
      match kernel_branch, kernel_build_id with
      | Some kb, Some kid =>
          if (truthy kernel_branch && truthy kernel_build_id)%bool
          then <["cvd_01_fetch_kernel_bid" := kb ++ "/" ++ kid]> metadata
          else metadata
      | _, _ => metadata
      end in
    let metadata := <["cvd_01_launch" := "1"]> metadata in
    x_res <- getitem resolution 0 ;;
    let metadata := <["cvd_01_x_res" := x_res]> metadata in
    y_res <- getitem resolution 1 ;;
    let metadata := <["cvd_01_y_res" := y_res]> metadata in
    metadata <-
      (if gt_zero blank_data_disk_size_gb then
         let metadata :=
           <["cvd_01_data_policy" := DATA_POLICY_CREATE_IF_MISSING]> metadata in
         size_mb <- mul_int blank_data_disk_size_gb 1024 ;;
         Ok (<["cvd_01_blank_data_disk_size" := pystr.str size_mb]> metadata)
       else Ok metadata) ;;
    metadata <-
      (match _ssh_public_key_path self with
       | Some path =>
           if truthy (Some path) then
             rsa <- _LoadSshPublicKey env path ;;
             Ok (<["sshKeys" := getuser env ++ ":" ++ rsa]> metadata)
           else Ok metadata
       | None => Ok metadata
       end) ;;
    Ok {| req_instance := instance;
          req_image_name := image_name;
          req_image_project := image_project;
          req_disk_args := disk_args;
          req_metadata := metadata;
          req_machine_type := _machine_type self;
          req_network := _network self;
          req_zone := _zone self |} in
  match prepared with
  | Ok request => (ComputeClient_CreateInstance env request, [request])
  | Raise e => (Raise e, [])
  end.

(** [self] with another resolution string. *)
Definition with_resolution (self : CvdComputeClient) (resolution : string)
  : CvdComputeClient :=
  {| _metadata := _metadata self;
     _resolution := resolution;
     _ssh_public_key_path := _ssh_public_key_path self;
     _machine_type := _machine_type self;
     _network := _network self;
     _zone := _zone self |}.

(** *** Sample backends and clients *)

(** A backend that accepts everything; its images are 10 GB large. *)
Definition env_accepting : Env :=
  {| _CheckMachineSize := Ok tt;
     GetImage := fun image_name _ =>
       Ok {| selfLink := "projects/p/global/images/" ++ image_name;
             diskSizeGb := "10" |};
     _LoadSshPublicKey := fun _ => Ok "ssh-rsa AAAA";
     getuser := "user";
     ComputeClient_CreateInstance := fun _ => Ok tt |}.

(** The same backend, for a machine type that is too small. *)
Definition env_machine_too_small : Env :=
  {| _CheckMachineSize := Raise (ExternalError "_CheckMachineSize");
     GetImage := GetImage env_accepting;
     _LoadSshPublicKey := _LoadSshPublicKey env_accepting;
     getuser := "user";
     ComputeClient_CreateInstance := fun _ => Ok tt |}.

Definition client_1280x800 : CvdComputeClient :=
  {| _metadata := ∅;
     _resolution := "1280x800x32x240";
     _ssh_public_key_path := Some "/home/user/.ssh/key.pub";
     _machine_type := "n1-standard-4";
     _network := "default";
     _zone := "us-central1-f" |}.

End cvd_compute_client.

(** ** acloud/internal/lib/ssh.py *)

Module ssh.

(** [gcompute_client.IP(external, internal)], as ssh_test.py builds it. *)
Record IP : Type := {
  external : string;
  internal : string
}.

(** Modelled from the spec: the remote host descriptor of section 3,
    {externalIp, internalIp, user, privateKeyPath, extraArgs?,
    reportInternalIp}, as the constructor [ssh.Ssh] receives it in
    ssh_test.py; ssh.py itself is not at hand. *)
Record Ssh : Type := {
  ip : IP;
  gce_user : string;
  ssh_private_key_path : string;
  extra_args_ssh_tunnel : option string;
  report_internal_ip : bool
}.

(** [constants.SSH_BIN] and [constants.SCP_BIN] *)
Inductive Binary : Type := SSH_BIN | SCP_BIN.

(** Modelled from the spec: the address the client targets, the internal
    one if [reportInternalIp] is set, else the external one. *)
Definition _ip (self : Ssh) : string :=
  if report_internal_ip self then internal (ip self) else external (ip self).

(** Modelled from the spec: [GetBaseCmd] of section 4.6, which ssh.py
    defines.  In fixed order: the binary path, the identity-file flag, the
    quiet flag, [UserKnownHostsFile=/dev/null], [StrictHostKeyChecking=no],
    the extra arguments if any are configured, then, for the ssh binary
    only, [-l <user>] and the target address; the pieces are separated by
    single spaces, as the expected strings of ssh_test.py have them.
    [find_executable] gives the path of a binary. *)
Definition GetBaseCmd (find_executable : Binary -> string) (self : Ssh)
    (execute_bin : Binary) : string :=
  let base_cmd :=
    [find_executable execute_bin;
     "-i"; ssh_private_key_path self;
     "-q";
     "-o UserKnownHostsFile=/dev/null";
     "-o StrictHostKeyChecking=no"] in
  let base_cmd :=
    match extra_args_ssh_tunnel self with
    | Some extra => (base_cmd ++ [extra])%list
    | None => base_cmd
    end in
  let base_cmd :=
    match execute_bin with
    | SSH_BIN => (base_cmd ++ ["-l"; gce_user self; _ip self])%list
    | SCP_BIN => base_cmd
    end in
  pystr.join " " base_cmd.

(** The paths ssh_test.py expects. *)
Definition usr_bin (b : Binary) : string :=
  match b with
  | SSH_BIN => "/usr/bin/ssh"
  | SCP_BIN => "/usr/bin/scp"
  end.

(** *** The values of ssh_test.py *)

Definition FAKE_IP : IP := {| external := "1.1.1.1"; internal := "10.1.1.1" |}.
Definition FAKE_SSH_USER : string := "fake_user".
Definition FAKE_SSH_PRIVATE_KEY_PATH : string := "/fake/acloud_rea".
Definition FAKE_EXTRA_ARGS_SSH : string :=
  "-o ProxyCommand='ssh fake_user@2.2.2.2 Server 22'".

(** [ssh.Ssh(ip, gce_user, ssh_private_key_path, extra_args_ssh_tunnel=None,
    report_internal_ip=False)] *)
Definition fake_ssh (extra_args : option string) (report_internal_ip : bool)
  : Ssh :=
  {| ip := FAKE_IP;
     gce_user := FAKE_SSH_USER;
     ssh_private_key_path := FAKE_SSH_PRIVATE_KEY_PATH;
     extra_args_ssh_tunnel := extra_args;
     report_internal_ip := report_internal_ip |}.

End ssh.

(** ** acloud/delete/delete.py and acloud/public/report.py *)

Module delete.

(** Modelled from the spec: the status of a report, enum{SUCCESS, FAIL}. *)
Inductive Status : Type := SUCCESS | FAIL.

(** Modelled from the spec: a {type, name} entry of [deleted]. *)
Record Entry : Type := {
  entry_type : string;
  entry_name : string
}.

(** Modelled from the spec: the Report of section 3, with its ordered
    [deleted] entries and [errors]; report.py is not at hand. *)
Record Report : Type := {
  deleted : list Entry;
  errors : list string
}.

(** Modelled from the spec: the status of a report is derived, FAIL iff
    [errors] is non-empty, else SUCCESS. *)
Definition status (report : Report) : Status :=
  match errors report with
  | [] => SUCCESS
  | _ :: _ => FAIL
  end.

(** Modelled from the spec: the instance handle of section 3. *)
Record InstanceHandle : Type := {
  name : string;
  instance_dir : string;
  adb_port : option Z;
  device_serial : option string
}.

(** The calls made on the device's control channel and on the handle. *)
Inductive Call : Type :=
  | EmuCommand (handle : InstanceHandle) (command : string)
  | DeleteCreationTimestamp (handle : InstanceHandle).

(** Modelled from the spec: appending to [deleted] and to [errors]. *)
Definition AddDeleted (report : Report) (entry : Entry) : Report :=
  {| deleted := (deleted report ++ [entry])%list; errors := errors report |}.

Definition AddError (report : Report) (msg : string) : Report :=
  {| deleted := deleted report; errors := (errors report ++ [msg])%list |}.

(** Modelled from the spec: [DeleteLocalGoldfishInstance] of section 4.7,
    which delete.py defines.  It issues the "kill" command through the
    device's control channel; return code 0 appends the success entry
    {type: "instance", name: handle.name}, any other appends an error; the
    creation-timestamp marker is removed afterwards in both cases.
    [emu_command] is the return code the control channel answers with and
    [error_message] the text of the error, which the spec leaves open.
    The result is the report and the calls made, in order. *)
Definition DeleteLocalGoldfishInstance
    (emu_command : InstanceHandle -> string -> Z)
    (error_message : InstanceHandle -> string)
    (handle : InstanceHandle) (report : Report) : Report * list Call :=
  let returncode := emu_command handle "kill" in
  let report :=
    if returncode =? 0 then
      AddDeleted report {| entry_type := "instance"; entry_name := name handle |}
    else
      AddError report (error_message handle) in
  (report, [EmuCommand handle "kill"; DeleteCreationTimestamp handle]).

(** *** The values of delete_test.py *)

(** [mock.Mock(adb_port=5555, device_serial="serial",
    instance_dir="/unit/test")], named "unittest". *)
Definition instance_unittest : InstanceHandle :=
  {| name := "unittest";
     instance_dir := "/unit/test";
     adb_port := Some 5555;
     device_serial := Some "serial" |}.

(** [report.Report(command="delete")] *)
Definition report_new : Report := {| deleted := []; errors := [] |}.


Definition cannot_kill (handle : InstanceHandle) : string :=
  "Cannot kill " ++ name handle.

End delete.

(** ** acloud/errors.py *)

Module errors.

(** The acloud exceptions that the functions below raise themselves, beside
    the exceptions that reach them from the calls they make. *)
Inductive AcloudError : Type :=
  | GetLocalImageError (msg : string)
  | NoCuttlefishCommonInstalled (msg : string)
  | GetCvdLocalHostPackageError (msg : string)
  | Propagated (e : Exception).

Inductive Outcome (A : Type) : Type :=
  | Returned (a : A)
  | Raised (e : AcloudError).
Arguments Returned {A} a.
Arguments Raised {A} e.

(** A result of the calls made, seen from the caller. *)
Definition of_result {A : Type} (r : Result A) : Outcome A :=
  match r with
  | Ok a => Returned a
  | Raise e => Raised (Propagated e)
  end.

End errors.

(** ** acloud/create/create_common.py, the interactive part *)

Module create_common_io.

(** What is written to the terminal: a [print] and the prompt of a
    [raw_input]. *)
Inductive Output : Type :=
  | Print (line : string)
  | Prompt (text : string).

(** [answer_list[i]] for an [i] that is not negative. *)
Definition getitem (answer_list : list string) (i : Z) : Result string :=
  match answer_list !! Z.to_nat i with
  | Some item => Ok item
  | None => Raise IndexError
  end.

(** The lines [GetAnswerFromList] prints before it asks. *)
Definition menu (answer_list : list string) : list Output :=
  Print "[0] to exit."
  :: imap (fun num item =>
             Print ("[" ++ pystr.str (Z.of_nat (S num)) ++ "] " ++ item))
       answer_list.

(** The [while True] loop of [GetAnswerFromList] on the lines the user still
    types; every pass reads one line, and reading past the last one is the
    [EOFError] of [raw_input].  The result comes with the lines left and
    with what was written. *)
Fixpoint GetAnswerFromList_loop (answer_list : list string)
    (lines : list string) : Result string * list string * list Output :=
  let max_choice := Z.of_nat (List.length answer_list) in
  let prompt := Prompt ("Enter your choice[0-" ++ pystr.str max_choice ++ "]: ") in
  match lines with
  | [] => (Raise EOFError, [], [prompt])
  | line :: rest =>
      match pystr.int line with
      | Raise _ =>
          (* print("'%s' is not a valid integer.", choice); continue *)
          let '(r, remaining, written) := GetAnswerFromList_loop answer_list rest in
          (r, remaining,
           prompt :: Print ("'%s' is not a valid integer. " ++ line) :: written)
      | Ok choice =>
          if choice =? 0 then
            (Raise SystemExit, rest, [prompt; Print "Exiting acloud."])
          else if ((choice <? 0) || (max_choice <? choice))%bool then
            let '(r, remaining, written) := GetAnswerFromList_loop answer_list rest in
            (r, remaining,
             prompt
             :: Print ("please choose between 0 and " ++ pystr.str max_choice)
             :: written)
          else (getitem answer_list (choice - 1), rest, [prompt])
      end
  end.

Definition GetAnswerFromList (answer_list : list string) (lines : list string)
  : Result string * list string * list Output :=
  let '(r, remaining, written) := GetAnswerFromList_loop answer_list lines in
  (r, remaining, (menu answer_list ++ written)%list).

(** [VerifyLocalImageArtifactsExist]; [glob] is [glob.glob], which lists the
    paths that match a pattern. *)
Definition VerifyLocalImageArtifactsExist (glob : string -> list string)
    (local_image_dir : string) (lines : list string)
  : errors.Outcome string * list string * list Output :=
  let image_pattern := os_path.join local_image_dir ["*img*.zip"] in
  let images := glob image_pattern in
  match images with
  | [] =>
      (errors.Raised
         (errors.GetLocalImageError
            ("No images matching pattern (" ++ image_pattern ++ ") in "
             ++ local_image_dir)),
       lines, [])
  | [image_path] => (errors.Returned image_path, lines, [])
  | _ =>
      let '(r, remaining, written) := GetAnswerFromList images lines in
      (errors.of_result r, remaining,
       Print "Multiple images found, please choose 1." :: written)
  end.

(** A line the loop passes over: not an integer, or an integer that is
    negative or above the number of answers. *)
Definition passed_over (max_choice : Z) (line : string) : bool :=
  match pystr.int line with
  | Raise _ => true
  | Ok choice => ((choice <? 0) || (max_choice <? choice))%bool
  end.

(** *** Sample values *)

Definition two_images : list string :=
  ["/out/aosp_cf_x86_phone-img-5046769.zip";
   "/out/aosp_cf_x86_phone-img-eng.user.zip"].

Definition glob_two (pattern : string) : list string :=
  if String.eqb pattern "/out/*img*.zip" then two_images else [].

End create_common_io.

(** ** RemoteImageLocalInstance.GetImageArtifactsPath *)

Module RemoteImageLocalInstance.
Import remote_image_local_instance.


(** The calls [_DownloadRemoteImage] makes when nothing fails: the client,
    then for the host package and for the image archive the download, the
    decompression and the removal. *)
Definition download_calls (build_target build_id extract_path : string)
  : list Event :=
  let remote_image :=
    hd "" (pystr.split "-" build_target) ++ "-img-" ++ build_id ++ ".zip" in
  CreateClient
  :: List.concat
       ((fun artifact =>
           let temp_filename := os_path.join extract_path [artifact] in
           [DownloadArtifact build_target build_id artifact temp_filename;
            Decompress temp_filename extract_path;
            Remove temp_filename])
          <$> [_CVD_HOST_PACKAGE; remote_image]).

End RemoteImageLocalInstance.

(** ** Writing hardware properties down *)

Module hw_property.

(** A key or value that can be written down: not empty, and free of both
    separators. *)
Definition writable (s : string) : Prop :=
  s <> "" /\ pystr.contains "," s = false /\ pystr.contains ":" s = false.

Definition written_item (pair : string * string) : string :=
  pair.1 ++ ":" ++ pair.2.

End hw_property.

(** * Properties *)

(** ** Strings *)

Section pystr_facts.
Import pystr.
Variable sep : ascii.

Lemma split_length (s : string) :
  List.length (split sep s) = S (count sep s).
Proof.
  induction s as [|c s IH]; simpl; [reflexivity|].
  destruct (Ascii.eqb c sep); simpl.
  - now rewrite IH.
  - destruct (split sep s) as [|h t]; simpl in *; congruence.
Qed.

Lemma contains_count (s : string) :
  contains sep s = negb (Nat.eqb (count sep s) 0).
Proof.
  induction s as [|c s IH]; simpl; [reflexivity|].
  destruct (Ascii.eqb c sep); simpl; auto.
Qed.

End pystr_facts.

(** ** ParseHWPropertyArgs *)

Section ParseHWPropertyArgs_facts.
Import create_common.
Variable kv : ascii.

Lemma item_many (hw_dict : gmap string string) (item : string) :
  many_separators kv item = true ->
  ParseHWPropertyArgs_item kv hw_dict item = Raise ValueError.
Proof.
  unfold many_separators, ParseHWPropertyArgs_item. intros H.
  apply Nat.leb_le in H.
  rewrite contains_count.
  destruct (Nat.eqb_spec (pystr.count kv item) 0) as [E|_]; [lia|]. simpl.
  pose proof (split_length kv item) as L.
  destruct (pystr.split kv item) as [|a [|b [|c l]]]; simpl in L;
    try reflexivity; lia.
Qed.

Lemma item_lacks (hw_dict : gmap string string) (item : string) :
  lacks_separator_or_part kv item = true ->
  exists msg, ParseHWPropertyArgs_item kv hw_dict item
              = Raise (MalformedDictStringError msg).
Proof.
  unfold lacks_separator_or_part, ParseHWPropertyArgs_item. intros H.
  destruct (pystr.contains kv item); simpl in *; [|eauto].
  destruct (pystr.split kv item) as [|a [|b [|c l]]]; try discriminate.
  rewrite orb_comm in H. rewrite H. eauto.
Qed.

Lemma item_accepted (hw_dict : gmap string string) (item : string) :
  accepted kv item = true ->
  exists key value,
    pystr.split kv item = [key; value] /\
    ParseHWPropertyArgs_item kv hw_dict item
    = Ok (<[pystr.strip key := pystr.strip value]> hw_dict).
Proof.
  unfold accepted, lacks_separator_or_part, many_separators,
    ParseHWPropertyArgs_item.
  intros H. apply andb_true_iff in H as [H1 H2].
  apply negb_true_iff in H1, H2. apply orb_false_iff in H1 as [H1 H3].
  apply Nat.leb_gt in H2.
  destruct (pystr.contains kv item) eqn:C; [|discriminate]. simpl.
  pose proof (split_length kv item) as L.
  rewrite contains_count in C.
  destruct (Nat.eqb_spec (pystr.count kv item) 0) as [E|NE]; [discriminate|].
  destruct (pystr.split kv item) as [|a [|b [|c l]]]; simpl in L; try lia.
  rewrite orb_comm, H3. eauto.
Qed.

(** Every item is of exactly one of the three kinds. *)
Lemma item_kinds (item : string) :
  (lacks_separator_or_part kv item = true /\ many_separators kv item = false)
  \/ (lacks_separator_or_part kv item = false /\ many_separators kv item = true)
  \/ accepted kv item = true.
Proof.
  unfold accepted.
  destruct (many_separators kv item) eqn:M;
    destruct (lacks_separator_or_part kv item) eqn:K; auto.
  exfalso. unfold many_separators, lacks_separator_or_part in *.
  apply Nat.leb_le in M.
  pose proof (split_length kv item) as L. rewrite contains_count in K.
  destruct (Nat.eqb_spec (pystr.count kv item) 0) as [E|NE]; [lia|].
  simpl in K.
  destruct (pystr.split kv item) as [|a [|b [|c l]]]; simpl in L;
    try discriminate; lia.
Qed.

(** The loop stops at the first item that is not accepted. *)
Lemma loop_accepted_prefix (pre rest : list string) :
  forall hw_dict : gmap string string,
    Forall (fun i => accepted kv i = true) pre ->
    exists hw_dict',
      ParseHWPropertyArgs_loop kv hw_dict (pre ++ rest)
      = ParseHWPropertyArgs_loop kv hw_dict' rest.
Proof.
  induction pre as [|i pre IH]; intros hw_dict H; simpl.
  - eauto.
  - inversion H as [|? ? Hi Hpre]; subst.
    destruct (item_accepted hw_dict i Hi) as (key & value & _ & ->). simpl.
    apply IH, Hpre.
Qed.

Lemma loop_raises_Malformed (items : list string) :
  forall (hw_dict : gmap string string) msg,
    ParseHWPropertyArgs_loop kv hw_dict items
    = Raise (MalformedDictStringError msg) ->
    Exists (fun i => lacks_separator_or_part kv i = true) items.
Proof.
  induction items as [|i items IH]; intros hw_dict msg H; simpl in H.
  - discriminate.
  - destruct (item_kinds i) as [[K _]|[[_ M]|A]].
    + now constructor.
    + rewrite (item_many hw_dict i M) in H. discriminate.
    + destruct (item_accepted hw_dict i A) as (key & value & _ & E).
      rewrite E in H. simpl in H. apply Exists_cons_tl. eapply IH, H.
Qed.

Lemma loop_raises_ValueError (items : list string) :
  forall hw_dict : gmap string string,
    ParseHWPropertyArgs_loop kv hw_dict items = Raise ValueError ->
    Exists (fun i => many_separators kv i = true) items.
Proof.
  induction items as [|i items IH]; intros hw_dict H; simpl in H.
  - discriminate.
  - destruct (item_kinds i) as [[K _]|[[_ M]|A]].
    + destruct (item_lacks hw_dict i K) as [msg E]. rewrite E in H.
      discriminate.
    + now constructor.
    + destruct (item_accepted hw_dict i A) as (key & value & _ & E).
      rewrite E in H. simpl in H. apply Exists_cons_tl. eapply IH, H.
Qed.

(** With no item of two or more separators, one item without separator,
    or with an empty key or value, is enough for the malformed-input
    error. *)
Lemma loop_Malformed (items : list string) :
  forall hw_dict : gmap string string,
    Forall (fun i => many_separators kv i = false) items ->
    Exists (fun i => lacks_separator_or_part kv i = true) items ->
    exists msg, ParseHWPropertyArgs_loop kv hw_dict items
                = Raise (MalformedDictStringError msg).
Proof.
  induction items as [|i items IH]; intros hw_dict HF HE.
  - inversion HE.
  - inversion HF as [|? ? Mi HF']; subst. simpl.
    destruct (item_kinds i) as [[K _]|[[_ M]|A]].
    + destruct (item_lacks hw_dict i K) as [msg ->]. simpl. eauto.
    + congruence.
    + destruct (item_accepted hw_dict i A) as (key & value & _ & ->). simpl.
      apply IH; [assumption|].
      inversion HE as [? ? K|]; subst; [|assumption].
      unfold accepted in A. rewrite K in A. discriminate.
Qed.

Lemma ParseHWPropertyArgs_items (dict_str : string) (item_sep : ascii) :
  ParseHWPropertyArgs dict_str item_sep kv
  = ParseHWPropertyArgs_loop kv ∅ (items_of item_sep dict_str).
Proof.
  unfold ParseHWPropertyArgs, items_of.
  destruct (pystr.is_empty dict_str); reflexivity.
Qed.

End ParseHWPropertyArgs_facts.

Section ParseHWPropertyArgs_claims.
Import create_common.

(** The example of the docstring and of the specification. *)
Lemma ParseHWPropertyArgs_cpu_dpi :
  ParseHWPropertyArgs "cpu:2,dpi:240" "," ":"
  = Ok {[ "cpu" := "2"; "dpi" := "240" ]}.
Proof. vm_compute. reflexivity. Qed.

(** Where no item has two or more separators, an item without separator,
    or with an empty key or value, makes the call raise
    [MalformedDictStringError]. *)
Lemma ParseHWPropertyArgs_malformed (dict_str : string) :
  Forall (fun i => many_separators ":" i = false) (items_of "," dict_str) ->
  Exists (fun i => lacks_separator_or_part ":" i = true) (items_of "," dict_str) ->
  exists msg,
    ParseHWPropertyArgs dict_str "," ":" = Raise (MalformedDictStringError msg).
Proof.
  intros HF HE. rewrite ParseHWPropertyArgs_items. now apply loop_Malformed.
Qed.

(** C2, at the failing input ["a:b:c,d"]: ["cpu:2,dpi:240"] parses to
    {cpu: "2", dpi: "240"}; but on ["a:b:c,d"], whose item ["d"] has no
    separator, the call ends in the [ValueError] of unpacking ["a:b:c"] and
    not in [MalformedDictStringError]. *)
Theorem ParseHWPropertyArgs_unpack_error_first :
  ParseHWPropertyArgs "cpu:2,dpi:240" "," ":"
  = Ok {[ "cpu" := "2"; "dpi" := "240" ]}
  /\ In "d" (items_of "," "a:b:c,d")
  /\ lacks_separator_or_part ":" "d" = true
  /\ ParseHWPropertyArgs "a:b:c,d" "," ":" = Raise ValueError.
Proof.
  split; [vm_compute; reflexivity|].
  split; [simpl; auto|]. split; reflexivity.
Qed.

(** C10, as stated, fails at ["x,a:b:c"]: the item ["a:b:c"] has two
    separators, but the call raises [MalformedDictStringError] on ["x"]. *)
Lemma ParseHWPropertyArgs_malformed_item_first :
  In "a:b:c" (items_of "," "x,a:b:c")
  /\ many_separators ":" "a:b:c" = true
  /\ ParseHWPropertyArgs "x,a:b:c" "," ":"
     = Raise (MalformedDictStringError
                "Expecting ':' in 'x' to make a key-val pair")
  /\ ParseHWPropertyArgs "x,a:b:c" "," ":" <> Raise ValueError.
Proof.
  split; [simpl; auto|]. split; [reflexivity|]. split; [reflexivity|].
  intros H. vm_compute in H. discriminate H.
Qed.

(** C10, amended: an item with two or more separators that only accepted
    items precede makes the call raise a plain [ValueError]; and
    [MalformedDictStringError] is raised only when some item has no
    separator or an empty key or value. *)
Theorem ParseHWPropertyArgs_many_separators (dict_str : string) :
  (forall pre item post,
      items_of "," dict_str = (pre ++ item :: post)%list ->
      Forall (fun i => accepted ":" i = true) pre ->
      many_separators ":" item = true ->
      ParseHWPropertyArgs dict_str "," ":" = Raise ValueError)
  /\ (forall msg,
         ParseHWPropertyArgs dict_str "," ":"
         = Raise (MalformedDictStringError msg) ->
         Exists (fun i => lacks_separator_or_part ":" i = true)
           (items_of "," dict_str)).
Proof.
  split.
  - intros pre item post E Hpre M. rewrite ParseHWPropertyArgs_items, E.
    destruct (loop_accepted_prefix ":" pre (item :: post) ∅ Hpre) as [d ->].
    simpl. now rewrite (item_many ":" d item M).
  - intros msg H. rewrite ParseHWPropertyArgs_items in H.
    eapply loop_raises_Malformed, H.
Qed.

Lemma ParseHWPropertyArgs_many_separators_witness :
  ParseHWPropertyArgs "cpu:2,a:b:c,d" "," ":" = Raise ValueError.
Proof.
  apply (proj1 (ParseHWPropertyArgs_many_separators "cpu:2,a:b:c,d")
           ["cpu:2"] "a:b:c" ["d"]).
  - reflexivity.
  - repeat constructor.
  - reflexivity.
Defined.

End ParseHWPropertyArgs_claims.

(** ** The download directory confirmation loop *)

Section ConfirmDownloadRemoteImageDir_facts.
Import remote_image_local_instance.
Variable env : Env.

Ltac run :=
  cbv [mbind os_path_exists os_statvfs InteractWithQuestion os_makedirs
       print sys_exit record raise ret set_files negb orb files stdin log].

(** One pass through the loop: what it can end in. *)
Lemma body_outcome (download_dir : string) (w : World) :
  match _ConfirmDownloadRemoteImageDir_body env download_dir w with
  | (Ok (Return d), w') =>
      enough_space env d /\ is_Some (files w' !! d)
  | (Ok (Continue d), w') =>
      (List.length (stdin w') < List.length (stdin w))%nat
  | (Raise e, w') => ends_process e
  end.
Proof.
  unfold enough_space, ends_process, _ConfirmDownloadRemoteImageDir_body.
  set (d := expanduser env download_dir).
  destruct w as [fs input lg]. run.
  destruct (fs !! d) as [k|] eqn:P; run.
  - rewrite P; run.
    destruct (available_space_of (statvfs_of env d) <? _REQUIRED_SPACE) eqn:S;
      run.
    + destruct input as [|a rest]; run; [auto|].
      destruct (String.eqb (pystr.lower a) "q"); run; [auto|simpl; lia].
    + apply Z.ltb_ge in S. rewrite P. eauto.
  - destruct input as [|a rest]; run; [auto|].
    destruct (String.eqb (pystr.lower a) "y"); run; [|auto].
    rewrite P; run.
    destruct (makedirs_denied env d); run; [auto|].
    rewrite lookup_insert_eq; run.
    destruct (available_space_of (statvfs_of env d) <? _REQUIRED_SPACE) eqn:S;
      run.
    + destruct rest as [|b rest']; run; [auto|].
      destruct (String.eqb (pystr.lower b) "q"); run; [auto|simpl; lia].
    + apply Z.ltb_ge in S. rewrite lookup_insert_eq. eauto.
Qed.

Lemma loop_outcome (fuel : nat) :
  forall (download_dir : string) (w : World) r w',
    _ConfirmDownloadRemoteImageDir_loop fuel env download_dir w = Some (r, w') ->
    match r with
    | Ok d => enough_space env d /\ is_Some (files w' !! d)
    | Raise e => ends_process e
    end.
Proof.
  induction fuel as [|fuel IH]; intros d w r w' H; simpl in H; [discriminate|].
  pose proof (body_outcome d w) as B.
  destruct (_ConfirmDownloadRemoteImageDir_body env d w) as [[[p|d']|e] w1].
  - now inversion H; subst.
  - eapply IH, H.
  - now inversion H; subst.
Qed.

Lemma loop_terminates (fuel : nat) :
  forall (download_dir : string) (w : World),
    (List.length (stdin w) < fuel)%nat ->
    exists out, _ConfirmDownloadRemoteImageDir_loop fuel env download_dir w
                = Some out.
Proof.
  induction fuel as [|fuel IH]; intros d w L; [lia|]. simpl.
  pose proof (body_outcome d w) as B.
  destruct (_ConfirmDownloadRemoteImageDir_body env d w) as [[[p|d']|e] w1];
    eauto.
  apply IH. lia.
Qed.

End ConfirmDownloadRemoteImageDir_facts.

(** C1: [_ConfirmDownloadRemoteImageDir] always comes to an end, and it ends
    either in returning a directory that exists and whose available space,
    [f_bavail * f_bsize / 1024 ** 3], is at least [_REQUIRED_SPACE] = 10, or
    in an exception that ends the process; it never returns a directory with
    less space. *)
Theorem ConfirmDownloadRemoteImageDir_enough_space
    (env : remote_image_local_instance.Env) (download_dir : string)
    (w : remote_image_local_instance.World) :
  exists r w',
    remote_image_local_instance._ConfirmDownloadRemoteImageDir env download_dir w
    = Some (r, w')
    /\ match r with
       | Ok d =>
           let stat := remote_image_local_instance.statvfs_of env d in
           10 <= remote_image_local_instance.f_bavail stat
                 * remote_image_local_instance.f_bsize stat / 1024 ^ 3
           /\ is_Some (remote_image_local_instance.files w' !! d)
       | Raise e => remote_image_local_instance.ends_process e
       end.
Proof.
  unfold remote_image_local_instance._ConfirmDownloadRemoteImageDir.
  destruct (loop_terminates env
              (S (List.length (remote_image_local_instance.stdin w)))
              download_dir w) as [[r w'] E]; [lia|].
  exists r, w'. split; [exact E|].
  apply loop_outcome in E. destruct r; exact E.
Qed.

(** The whole GiB of [available_space] are at least 10 exactly when the
    free bytes are at least 10 GiB. *)
Lemma enough_space_bytes
    (env : remote_image_local_instance.Env) (download_dir : string) :
  let stat := remote_image_local_instance.statvfs_of env download_dir in
  remote_image_local_instance.enough_space env download_dir
  <-> 10 * 1024 ^ 3
      <= remote_image_local_instance.f_bavail stat
         * remote_image_local_instance.f_bsize stat.
Proof.
  cbv zeta.
  unfold remote_image_local_instance.enough_space,
    remote_image_local_instance.available_space_of,
    remote_image_local_instance._REQUIRED_SPACE.
  split; intros H.
  - apply (Z.mul_le_mono_nonneg_r _ _ (1024 ^ 3)) in H; [|lia].
    etransitivity; [exact H|]. rewrite Z.mul_comm.
    apply Z.mul_div_le. lia.
  - apply Z.div_le_lower_bound; lia.
Qed.

(** A run: [/small] has too little room, the user names [/big], which does
    not exist, agrees to create it, and [/big] is returned. *)
Lemma ConfirmDownloadRemoteImageDir_sample :
  (fun out => (out.1, remote_image_local_instance.log out.2))
    <$> remote_image_local_instance._ConfirmDownloadRemoteImageDir
          remote_image_local_instance.env_fine "/small"
          remote_image_local_instance.world_small
  = Some (Ok "/big",
          [remote_image_local_instance.Asked
             (remote_image_local_instance.NotEnoughSpace "/small" 0 10);
           remote_image_local_instance.Asked
             (remote_image_local_instance.NoSuchDirectory "/big");
           remote_image_local_instance.Makedirs "/big"]).
Proof. vm_compute. reflexivity. Qed.

(** The same for any bound on the number of passes: a directory the loop
    returns has enough space. *)
Lemma ConfirmDownloadRemoteImageDir_loop_returns
    (env : remote_image_local_instance.Env) (fuel : nat)
    (download_dir d : string) (w w' : remote_image_local_instance.World) :
  remote_image_local_instance._ConfirmDownloadRemoteImageDir_loop
    fuel env download_dir w = Some (Ok d, w') ->
  remote_image_local_instance.enough_space env d.
Proof. intros H. now apply loop_outcome in H. Qed.

(** ** The download, unpack and ACL pipeline *)

Section pipeline_facts.
Import remote_image_local_instance.
Variable env : Env.

Lemma keeps_ret {A : Type} (a : A) : keeps_dirs (ret a).
Proof. intros w r w' H p Hp. inversion H; subst. exact Hp. Qed.

Lemma keeps_raise {A : Type} (e : Exception) : keeps_dirs (@raise A e).
Proof. intros w r w' H p Hp. inversion H; subst. exact Hp. Qed.

Lemma keeps_record (ev : Event) : keeps_dirs (record ev).
Proof. intros w r w' H p Hp. inversion H; subst. exact Hp. Qed.

Lemma keeps_exists (path : string) : keeps_dirs (os_path_exists path).
Proof. intros w r w' H p Hp. inversion H; subst. exact Hp. Qed.

Lemma keeps_bind {A B : Type} (m : M A) (k : A -> M B) :
  keeps_dirs m -> (forall a, keeps_dirs (k a)) -> keeps_dirs (mbind m k).
Proof.
  intros Hm Hk w r w' H p Hp. unfold mbind in H.
  destruct (m w) as [[a|e] w1] eqn:E.
  - eapply Hk; [exact H|]. eapply Hm; eauto.
  - inversion H; subst. eapply Hm; eauto.
Qed.

Lemma keeps_if {A : Type} (b : bool) (m1 m2 : M A) :
  keeps_dirs m1 -> keeps_dirs m2 -> keeps_dirs (if b then m1 else m2).
Proof. destruct b; auto. Qed.

Lemma keeps_new_files (paths : list string) :
  keeps_dirs (set_files (fun fs => fs ∪ new_files paths)).
Proof.
  intros w r w' H p Hp. inversion H; subst. simpl.
  now apply lookup_union_Some_l.
Qed.

Lemma keeps_makedirs (path : string) : keeps_dirs (os_makedirs env path).
Proof.
  unfold os_makedirs.
  apply keeps_bind; [apply keeps_record|intros _].
  apply keeps_bind; [apply keeps_exists|intros present].
  apply keeps_if; [apply keeps_raise|].
  intros w r w' H p Hp. inversion H; subst. simpl.
  destruct (decide (path = p)) as [->|NE].
  - apply lookup_insert_eq.
  - now rewrite lookup_insert_ne.
Qed.

Lemma keeps_remove (path : string) : keeps_dirs (os_remove path).
Proof.
  unfold os_remove.
  apply keeps_bind; [apply keeps_record|intros _].
  intros w r w' H p Hp.
  destruct (files w !! path) as [[|]|] eqn:E;
    inversion H; subst; simpl; try exact Hp.
  rewrite lookup_delete_ne; [exact Hp|]. congruence.
Qed.

Lemma keeps_check_call (cmd : string) :
  keeps_dirs (subprocess_check_call env cmd).
Proof.
  unfold subprocess_check_call.
  apply keeps_bind; [apply keeps_record|intros _].
  apply keeps_if; [apply keeps_ret|apply keeps_raise].
Qed.

Lemma keeps_for_each {A : Type} (l : list A) (body : A -> M unit) :
  (forall x, keeps_dirs (body x)) -> keeps_dirs (for_each l body).
Proof.
  intros Hb. induction l as [|x l IH]; simpl.
  - apply keeps_ret.
  - apply keeps_bind; auto.
Qed.

Create HintDb keeps discriminated.

#[local] Hint Resolve keeps_ret keeps_raise keeps_record keeps_exists
  keeps_new_files keeps_makedirs keeps_remove keeps_check_call : keeps.
#[local] Hint Extern 2 (keeps_dirs (mbind _ _)) =>
  apply keeps_bind; [|intros ?] : keeps.
#[local] Hint Extern 2 (keeps_dirs (if _ then _ else _)) =>
  apply keeps_if : keeps.
#[local] Hint Extern 3 (keeps_dirs (for_each _ _)) =>
  apply keeps_for_each; intros ? : keeps.

Lemma keeps_DownloadRemoteImage (build_target build_id extract_path : string) :
  keeps_dirs (_DownloadRemoteImage env build_target build_id extract_path).
Proof.
  unfold _DownloadRemoteImage.
  apply keeps_bind; [unfold AndroidBuildClient; auto with keeps|intros _].
  apply keeps_for_each. intros artifact.
  apply keeps_bind;
    [unfold build_client_DownloadArtifact; auto with keeps|intros _].
  apply keeps_bind.
  { unfold utils_Decompress.
    apply keeps_bind; [apply keeps_record|intros _].
    destruct (archive_members env _); auto with keeps. }
  intros _ w r w' H p Hp.
  pose proof (keeps_remove (os_path.join extract_path [artifact])) as K.
  destruct (os_remove (os_path.join extract_path [artifact]) w)
    as [[u|e] w1] eqn:E.
  - inversion H; subst. eapply K; eauto.
  - assert (w' = w1) by (destruct e; inversion H; reflexivity). subst.
    eapply K; eauto.
Qed.

Lemma keeps_UnpackBootImage (extract_path : string) :
  keeps_dirs (_UnpackBootImage env extract_path).
Proof.
  unfold _UnpackBootImage.
  apply keeps_bind; [apply keeps_exists|intros present].
  apply keeps_if; [apply keeps_raise|].
  intros w r w' H p Hp.
  pose proof (keeps_check_call
                (UNPACK_BOOTIMG_CMD (os_path.join extract_path [_BOOT_IMAGE])
                   extract_path)) as K.
  destruct (subprocess_check_call env _ w) as [[z|e] w1] eqn:E.
  - eapply keeps_new_files; [exact H|]. eapply K; eauto.
  - assert (w' = w1) by (destruct e; inversion H; reflexivity). subst.
    eapply K; eauto.
Qed.

Lemma keeps_AclCfImageFiles (extract_path : string) :
  keeps_dirs (_AclCfImageFiles env extract_path).
Proof.
  unfold _AclCfImageFiles. apply keeps_for_each. intros image.
  unfold _AclCfImageFiles_image. auto with keeps.
Qed.

(** With the extraction directory in place, nothing is done. *)
Lemma DownloadAndProcessImageFiles_present (avd_spec : AVDSpec) (w : World) :
  is_Some (files w !! extract_path_of avd_spec) ->
  _DownloadAndProcessImageFiles env avd_spec w
  = (Ok (extract_path_of avd_spec), w).
Proof.
  intros [k Hk]. unfold _DownloadAndProcessImageFiles. cbv zeta.
  unfold mbind, os_path_exists.
  rewrite Hk. reflexivity.
Qed.

(** A call that returns leaves the extraction directory behind. *)
Lemma DownloadAndProcessImageFiles_returns (avd_spec : AVDSpec)
    (w w' : World) (path : string) :
  _DownloadAndProcessImageFiles env avd_spec w = (Ok path, w') ->
  path = extract_path_of avd_spec /\ is_Some (files w' !! path).
Proof.
  unfold _DownloadAndProcessImageFiles. cbv zeta.
  unfold mbind at 1, os_path_exists.
  destruct (files w !! extract_path_of avd_spec) as [k|] eqn:P; simpl.
  - unfold mbind, ret. intros H. inversion H; subst. eauto.
  - set (ep := extract_path_of avd_spec) in *.
    unfold mbind at 1.
    match goal with
    | |- context [mbind (os_makedirs env ep) ?k] => set (rest := k)
    end.
    destruct (mbind (os_makedirs env ep) rest w) as [[u|e] w2] eqn:E;
      unfold ret; intros H; inversion H; subst.
    split; [reflexivity|].
    unfold mbind in E at 1.
    destruct (os_makedirs env ep w) as [[u1|e1] w1] eqn:E1; [|discriminate].
    assert (D : files w1 !! ep = Some Dir).
    { revert E1. destruct w as [fs input lg]. simpl in P.
      cbv [os_makedirs mbind record os_path_exists raise set_files orb
           files stdin log].
      rewrite P.
      destruct (makedirs_denied env ep); intros E1; inversion E1; subst; simpl.
      apply lookup_insert_eq. }
    assert (K : keeps_dirs (rest tt)).
    { unfold rest.
      apply keeps_bind; [apply keeps_DownloadRemoteImage|intros _].
      apply keeps_bind; [apply keeps_UnpackBootImage|intros _].
      apply keeps_AclCfImageFiles. }
    destruct u1. rewrite (K _ _ _ E _ D). eauto.
Qed.

End pipeline_facts.

(** C3: with the extraction directory
    [<download dir>/acloud_image_artifacts/<build id>] in place, the pipeline
    returns its path and does nothing else (no download, no unpacking, no
    ACL command: the world, log included, is unchanged); hence, after a call
    that returned, a second call for the same download directory and build
    id returns the same path and leaves the world as the first call left
    it. *)
Theorem DownloadAndProcessImageFiles_idempotent
    (env : remote_image_local_instance.Env)
    (avd_spec : remote_image_local_instance.AVDSpec)
    (w : remote_image_local_instance.World) :
  let extract_path :=
    os_path.join (remote_image_local_instance.image_download_dir avd_spec)
      ["acloud_image_artifacts";
       remote_image_local_instance.build_id
         (remote_image_local_instance.remote_image avd_spec)] in
  (is_Some (remote_image_local_instance.files w !! extract_path) ->
   remote_image_local_instance._DownloadAndProcessImageFiles env avd_spec w
   = (Ok extract_path, w))
  /\ (forall path w1,
         remote_image_local_instance._DownloadAndProcessImageFiles env avd_spec w
         = (Ok path, w1) ->
         forall env' avd_spec',
           remote_image_local_instance.image_download_dir avd_spec'
           = remote_image_local_instance.image_download_dir avd_spec ->
           remote_image_local_instance.build_id
             (remote_image_local_instance.remote_image avd_spec')
           = remote_image_local_instance.build_id
               (remote_image_local_instance.remote_image avd_spec) ->
           remote_image_local_instance._DownloadAndProcessImageFiles
             env' avd_spec' w1
           = (Ok path, w1)).
Proof.
  split.
  - apply DownloadAndProcessImageFiles_present.
  - intros path w1 H env' avd_spec' Hdir Hid.
    apply DownloadAndProcessImageFiles_returns in H as [-> Hex].
    assert (E : remote_image_local_instance.extract_path_of avd_spec'
                = remote_image_local_instance.extract_path_of avd_spec).
    { unfold remote_image_local_instance.extract_path_of.
      now rewrite Hdir, Hid. }
    rewrite <- E in *. now apply DownloadAndProcessImageFiles_present.
Qed.

(** The caveat of the shortcut: a first call that fails in the download
    leaves the extraction directory behind, and the second call returns its
    path with no further download. *)
Lemma DownloadAndProcessImageFiles_after_failure :
  let first :=
    remote_image_local_instance._DownloadAndProcessImageFiles
      remote_image_local_instance.env_download_fails
      remote_image_local_instance.avd_spec_5046769
      remote_image_local_instance.world_big in
  first.1 = Raise (ExternalError "DownloadArtifact")
  /\ remote_image_local_instance._DownloadAndProcessImageFiles
       remote_image_local_instance.env_fine
       remote_image_local_instance.avd_spec_5046769 first.2
     = (Ok "/big/acloud_image_artifacts/5046769", first.2).
Proof. cbv zeta. split; vm_compute; reflexivity. Qed.

Section AclCfImageFiles_facts.
Import remote_image_local_instance.
Variable env : Env.
Variable extract_path : string.

Lemma with_log_nil (w : World) : with_log w [] = w.
Proof. destruct w. unfold with_log. simpl. now rewrite app_nil_r. Qed.

Lemma with_log_app (w : World) (l1 l2 : list Event) :
  with_log (with_log w l1) l2 = with_log w (l1 ++ l2).
Proof. unfold with_log. simpl. now rewrite app_assoc. Qed.

(** One pass through the loop of [_AclCfImageFiles]. *)
Lemma AclCfImageFiles_image_run (image : string) (w : World) :
  let image_path := os_path.join extract_path [image] in
  _AclCfImageFiles_image env extract_path image w
  = match files w !! image_path with
    | None =>
        (Raise (CheckPathError ("Specified file doesn't exist: " ++ image_path)),
         w)
    | Some _ =>
        (if returncode env (ACL_CMD image_path) =? 0 then Ok tt
         else Raise (CalledProcessError (returncode env (ACL_CMD image_path))
                       (ACL_CMD image_path)),
         with_log w [CheckCall (ACL_CMD image_path)])
    end.
Proof.
  cbv zeta. unfold _AclCfImageFiles_image, mbind at 1, os_path_exists.
  destruct (files w !! os_path.join extract_path [image]); simpl.
  - unfold subprocess_check_call, mbind, record, ret, raise, with_log.
    destruct (returncode env _ =? 0); reflexivity.
  - reflexivity.
Qed.

Local Abbreviation acl_loop images :=
  (for_each images (_AclCfImageFiles_image env extract_path)).

Lemma acl_loop_missing (pre : list string) (image : string)
    (post : list string) :
  forall w : World,
    Forall (fun i =>
              is_Some (files w !! os_path.join extract_path [i])
              /\ returncode env (ACL_CMD (os_path.join extract_path [i])) = 0)
      pre ->
    files w !! os_path.join extract_path [image] = None ->
    acl_loop (pre ++ image :: post) w
    = (Raise (CheckPathError
                ("Specified file doesn't exist: "
                 ++ os_path.join extract_path [image])),
       with_log w (acl_calls extract_path pre)).
Proof.
  induction pre as [|i pre IH]; intros w HF HN; simpl.
  - unfold mbind. rewrite AclCfImageFiles_image_run. cbv zeta.
    rewrite HN, with_log_nil. reflexivity.
  - inversion HF as [|? ? [[k Hk] Hrc] HF']; subst.
    unfold mbind at 1. rewrite AclCfImageFiles_image_run. cbv zeta.
    rewrite Hk, Hrc. change (0 =? 0) with true. cbv beta iota.
    rewrite (IH (with_log w [CheckCall (ACL_CMD (os_path.join extract_path [i]))]));
      [now rewrite with_log_app|exact HF'|exact HN].
Qed.

Lemma acl_loop_prefix (images : list string) :
  forall (w : World) r w',
    acl_loop images w = (r, w') ->
    exists processed rest,
      images = (processed ++ rest)%list
      /\ w' = with_log w (acl_calls extract_path processed)
      /\ Forall (fun i => is_Some (files w !! os_path.join extract_path [i]))
           processed
      /\ (r = Ok tt -> rest = []).
Proof.
  induction images as [|i images IH]; intros w r w' H; simpl in H.
  - inversion H; subst. exists [], []. rewrite with_log_nil.
    split; [reflexivity|]. split; [reflexivity|]. split; [constructor|auto].
  - unfold mbind in H at 1. rewrite AclCfImageFiles_image_run in H.
    cbv zeta in H.
    destruct (files w !! os_path.join extract_path [i]) as [k|] eqn:P.
    + destruct (returncode env _ =? 0).
      * apply IH in H as (processed & rest & -> & -> & HF & Hr).
        exists (i :: processed), rest. rewrite with_log_app.
        split; [reflexivity|]. split; [reflexivity|].
        split; [constructor; [eauto|exact HF]|exact Hr].
      * inversion H; subst. exists [i], images.
        split; [reflexivity|]. split; [reflexivity|].
        split; [constructor; eauto|discriminate].
    + inversion H; subst. exists [], (i :: images). rewrite with_log_nil.
      split; [reflexivity|]. split; [reflexivity|].
      split; [constructor|discriminate].
Qed.

End AclCfImageFiles_facts.

(** C7, as stated, fails where the ACL command of an earlier file fails:
    [cache.img] is there but [setfacl] exits with 1 on it, so the call ends
    in [CalledProcessError], not in the path-missing error for [kernel],
    which is absent. *)
Lemma AclCfImageFiles_command_fails_first :
  remote_image_local_instance.files remote_image_local_instance.world_partial
    !! os_path.join "/d" ["kernel"] = None
  /\ remote_image_local_instance._AclCfImageFiles
       remote_image_local_instance.env_commands_fail "/d"
       remote_image_local_instance.world_partial
     = (Raise (CalledProcessError 1 "setfacl -m g:libvirt-qemu:rw /d/cache.img"),
        remote_image_local_instance.with_log
          remote_image_local_instance.world_partial
          [remote_image_local_instance.CheckCall
             "setfacl -m g:libvirt-qemu:rw /d/cache.img"]).
Proof. split; vm_compute; reflexivity. Qed.

(** C7, amended: [_AclCfImageFiles] goes through [cache.img], [cmdline],
    [kernel], [ramdisk.img], [system.img], [userdata.img], [vendor.img] in
    this order.  When a file is absent, and the files before it are there
    and their ACL commands exit with 0, the call raises the path-missing
    error that names the absent file, after the ACL commands of the files
    before it and of no other.  In every case the files that were
    ACL-processed are an initial segment of the list and all of them exist:
    none at or after the first absent one is processed. *)
Theorem AclCfImageFiles_first_missing
    (env : remote_image_local_instance.Env) (extract_path : string)
    (w : remote_image_local_instance.World) :
  remote_image_local_instance._CF_IMAGES
  = ["cache.img"; "cmdline"; "kernel"; "ramdisk.img"; "system.img";
     "userdata.img"; "vendor.img"]
  /\ (forall pre image post,
         remote_image_local_instance._CF_IMAGES = (pre ++ image :: post)%list ->
         Forall (fun i =>
                   is_Some (remote_image_local_instance.files w
                              !! os_path.join extract_path [i])
                   /\ remote_image_local_instance.returncode env
                        (remote_image_local_instance.ACL_CMD
                           (os_path.join extract_path [i])) = 0) pre ->
         remote_image_local_instance.files w
           !! os_path.join extract_path [image] = None ->
         remote_image_local_instance._AclCfImageFiles env extract_path w
         = (Raise (CheckPathError
                     ("Specified file doesn't exist: "
                      ++ os_path.join extract_path [image])),
            remote_image_local_instance.with_log w
              (remote_image_local_instance.acl_calls extract_path pre)))
  /\ (forall r w',
         remote_image_local_instance._AclCfImageFiles env extract_path w = (r, w') ->
         exists processed rest,
           remote_image_local_instance._CF_IMAGES = (processed ++ rest)%list
           /\ w' = remote_image_local_instance.with_log w
                     (remote_image_local_instance.acl_calls extract_path processed)
           /\ Forall (fun i =>
                        is_Some (remote_image_local_instance.files w
                                   !! os_path.join extract_path [i])) processed
           /\ (r = Ok tt -> rest = [])).
Proof.
  split; [reflexivity|]. split.
  - intros pre image post E HF HN.
    unfold remote_image_local_instance._AclCfImageFiles. rewrite E.
    now apply acl_loop_missing.
  - intros r w' H. eapply acl_loop_prefix, H.
Qed.

Lemma AclCfImageFiles_first_missing_witness :
  remote_image_local_instance._AclCfImageFiles
    remote_image_local_instance.env_fine "/d"
    remote_image_local_instance.world_partial
  = (Raise (CheckPathError "Specified file doesn't exist: /d/kernel"),
     remote_image_local_instance.with_log
       remote_image_local_instance.world_partial
       [remote_image_local_instance.CheckCall
          "setfacl -m g:libvirt-qemu:rw /d/cache.img";
        remote_image_local_instance.CheckCall
          "setfacl -m g:libvirt-qemu:rw /d/cmdline"]).
Proof.
  apply (proj1 (proj2 (AclCfImageFiles_first_missing
                         remote_image_local_instance.env_fine "/d"
                         remote_image_local_instance.world_partial))
           ["cache.img"; "cmdline"] "kernel"
           ["ramdisk.img"; "system.img"; "userdata.img"; "vendor.img"]).
  - reflexivity.
  - repeat constructor; vm_compute; eauto.
  - vm_compute. reflexivity.
Defined.

Lemma DownloadAndProcessImageFiles_idempotent_witness :
  let first :=
    remote_image_local_instance._DownloadAndProcessImageFiles
      remote_image_local_instance.env_fine
      remote_image_local_instance.avd_spec_5046769
      remote_image_local_instance.world_big in
  first.1 = Ok "/big/acloud_image_artifacts/5046769"
  /\ remote_image_local_instance._DownloadAndProcessImageFiles
       remote_image_local_instance.env_commands_fail
       remote_image_local_instance.avd_spec_5046769 first.2
     = (Ok "/big/acloud_image_artifacts/5046769", first.2).
Proof.
  cbv zeta. split; [vm_compute; reflexivity|].
  apply (proj2 (DownloadAndProcessImageFiles_idempotent
                  remote_image_local_instance.env_fine
                  remote_image_local_instance.avd_spec_5046769
                  remote_image_local_instance.world_big)).
  - vm_compute. reflexivity.
  - reflexivity.
  - reflexivity.
Defined.

(** ** CreateInstance *)

Section CreateInstance_facts.
Import cvd_compute_client.
Variable env : Env.
Variable self : CvdComputeClient.
Variables (instance image_name : string) (image_project : option string).
Variables (build_target branch build_id : string).
Variables (kernel_branch kernel_build_id : option string).

Local Abbreviation create blank :=
  (CreateInstance env self instance image_name image_project build_target
     branch build_id kernel_branch kernel_build_id blank).

(** What a submitted request tells about the call that made it. *)
Lemma CreateInstance_submitted (blank : option Z) r requests request :
  create blank = (r, requests) ->
  In request requests ->
  exists image base_size size dpi x_res y_res,
    _CheckMachineSize env = Ok tt
    /\ GetImage env image_name image_project = Ok image
    /\ pystr.int (diskSizeGb image) = Ok base_size
    /\ blank = Some size
    /\ pystr.split "x" (_resolution self) !! 3%nat = Some dpi
    /\ pystr.split "x" (_resolution self) !! 0%nat = Some x_res
    /\ pystr.split "x" (_resolution self) !! 1%nat = Some y_res
    /\ req_disk_args request
       = [ {| type := "PERSISTENT"; boot := true; mode := "READ_WRITE";
              autoDelete := true;
              initializeParams :=
                {| diskName := instance;
                   sourceImage := selfLink image;
                   init_diskSizeGb := base_size + size |} |} ]
    /\ req_metadata request !! "cvd_01_dpi" = Some dpi
    /\ req_metadata request !! "cvd_01_x_res" = Some x_res
    /\ req_metadata request !! "cvd_01_y_res" = Some y_res
    /\ requests = [request]
    /\ r = ComputeClient_CreateInstance env request.
Proof.
  unfold CreateInstance, _GetDiskArgs, getitem.
  destruct (_CheckMachineSize env) as [[]|e0]; simpl;
    [|intros H; inversion H; subst; contradiction].
  destruct (GetImage env image_name image_project) as [image|e1]; simpl;
    [|intros H; inversion H; subst; contradiction].
  destruct (pystr.int (diskSizeGb image)) as [base_size|e2] eqn:Hint; simpl;
    [|intros H; inversion H; subst; contradiction].
  destruct blank as [size|]; simpl;
    [|intros H; inversion H; subst; contradiction].
  destruct (pystr.split "x" (_resolution self) !! 3%nat) as [dpi|]; simpl;
    [|intros H; inversion H; subst; contradiction].
  destruct (pystr.split "x" (_resolution self) !! 0%nat) as [x_res|]; simpl;
    [|intros H; inversion H; subst; contradiction].
  destruct (pystr.split "x" (_resolution self) !! 1%nat) as [y_res|]; simpl;
    [|intros H; inversion H; subst; contradiction].
  match goal with
  | |- context [<["cvd_01_launch" := "1"]> ?m] => set (fetched := m)
  end.
  assert (Hdpi : fetched !! "cvd_01_dpi" = Some dpi).
  { subst fetched.
    destruct kernel_branch as [kb|], kernel_build_id as [kid|];
      try destruct (truthy (Some kb) && truthy (Some kid))%bool;
      now simplify_map_eq. }
  clearbody fetched.
  set (sized := if 0 <? size then _ else _).
  assert (Hsized : exists metadata,
             sized = Ok metadata
             /\ metadata !! "cvd_01_dpi" = Some dpi
             /\ metadata !! "cvd_01_x_res" = Some x_res
             /\ metadata !! "cvd_01_y_res" = Some y_res).
  { subst sized. destruct (0 <? size); eexists; (split; [reflexivity|]);
      now simplify_map_eq. }
  destruct Hsized as (metadata & -> & M1 & M2 & M3). simpl.
  set (keyed := match _ssh_public_key_path self with Some _ => _ | None => _ end).
  assert (Hkeyed : forall metadata',
             keyed = Ok metadata' ->
             metadata' !! "cvd_01_dpi" = Some dpi
             /\ metadata' !! "cvd_01_x_res" = Some x_res
             /\ metadata' !! "cvd_01_y_res" = Some y_res).
  { subst keyed. intros metadata'.
    destruct (_ssh_public_key_path self) as [path|];
      [destruct (negb (pystr.is_empty path));
       [destruct (_LoadSshPublicKey env path); simpl|]|];
      intros E; inversion E; subst; now simplify_map_eq. }
  destruct keyed as [metadata'|e3]; simpl;
    [|intros H; inversion H; subst; contradiction].
  destruct (Hkeyed metadata' eq_refl) as (K1 & K2 & K3).
  intros H Hin. inversion H; subst. destruct Hin as [<-|[]]. simpl.
  exists image, base_size, size, dpi, x_res, y_res.
  repeat (split; [reflexivity || assumption|]). reflexivity.
Qed.

End CreateInstance_facts.

(** C5: the disk arguments of a creation request that [CreateInstance]
    submits are a single entry (persistent, boot, read-write, auto-delete,
    named after the instance, from the image's self link) whose size is
    [int(GetImage(image_name, image_project)["diskSizeGb"])] plus
    [blank_data_disk_size_gb]. *)
Theorem CreateInstance_boot_disk_size
    (env : cvd_compute_client.Env) (self : cvd_compute_client.CvdComputeClient)
    (instance image_name : string) (image_project : option string)
    (build_target branch build_id : string)
    (kernel_branch kernel_build_id : option string)
    (blank_data_disk_size_gb : Z)
    (r : Result unit) (requests : list cvd_compute_client.Request)
    (request : cvd_compute_client.Request) :
  cvd_compute_client.CreateInstance env self instance image_name image_project
    build_target branch build_id kernel_branch kernel_build_id
    (Some blank_data_disk_size_gb) = (r, requests) ->
  In request requests ->
  exists image base_size,
    cvd_compute_client.GetImage env image_name image_project = Ok image
    /\ pystr.int (cvd_compute_client.diskSizeGb image) = Ok base_size
    /\ cvd_compute_client.req_disk_args request
       = [ {| cvd_compute_client.type := "PERSISTENT";
              cvd_compute_client.boot := true;
              cvd_compute_client.mode := "READ_WRITE";
              cvd_compute_client.autoDelete := true;
              cvd_compute_client.initializeParams :=
                {| cvd_compute_client.diskName := instance;
                   cvd_compute_client.sourceImage :=
                     cvd_compute_client.selfLink image;
                   cvd_compute_client.init_diskSizeGb :=
                     base_size + blank_data_disk_size_gb |} |} ].
Proof.
  intros H Hin.
  destruct (CreateInstance_submitted _ _ _ _ _ _ _ _ _ _ _ _ _ _ H Hin)
    as (image & base_size & size & dpi & x_res & y_res & _ & HI & HS & Hb & _
        & _ & _ & HD & _).
  inversion Hb; subst. eauto.
Qed.

Lemma CreateInstance_boot_disk_size_witness :
  let requests :=
    (cvd_compute_client.CreateInstance cvd_compute_client.env_accepting
       cvd_compute_client.client_1280x800 "ins-1" "cf-image" None
       "aosp_cf_x86_phone-userdebug" "aosp-master" "5046769" None None
       (Some 4)).2 in
  exists request,
    requests = [request]
    /\ exists image base_size,
        cvd_compute_client.GetImage cvd_compute_client.env_accepting
          "cf-image" None = Ok image
        /\ pystr.int (cvd_compute_client.diskSizeGb image) = Ok base_size
        /\ cvd_compute_client.req_disk_args request
           = [ {| cvd_compute_client.type := "PERSISTENT";
                  cvd_compute_client.boot := true;
                  cvd_compute_client.mode := "READ_WRITE";
                  cvd_compute_client.autoDelete := true;
                  cvd_compute_client.initializeParams :=
                    {| cvd_compute_client.diskName := "ins-1";
                       cvd_compute_client.sourceImage :=
                         cvd_compute_client.selfLink image;
                       cvd_compute_client.init_diskSizeGb := base_size + 4 |} |} ].
Proof.
  cbv zeta.
  destruct (cvd_compute_client.CreateInstance _ _ _ _ _ _ _ _ _ _ _)
    as [r requests] eqn:E.
  assert (L : List.length requests = 1%nat).
  { apply (f_equal snd) in E. simpl in E. rewrite <- E. vm_compute. reflexivity. }
  destruct requests as [|request [|]]; try discriminate L.
  exists request. split; [reflexivity|].
  apply (CreateInstance_boot_disk_size _ _ _ _ _ _ _ _ _ _ _ _ _ _ E).
  left. reflexivity.
Defined.



(** The request of the sample call carries the three fields. *)
Lemma CreateInstance_sample_metadata :
  (fun request =>
     (cvd_compute_client.req_metadata request !! "cvd_01_x_res",
      cvd_compute_client.req_metadata request !! "cvd_01_y_res",
      cvd_compute_client.req_metadata request !! "cvd_01_dpi",
      cvd_compute_client.req_metadata request !! "cvd_01_blank_data_disk_size"))
    <$> (cvd_compute_client.CreateInstance cvd_compute_client.env_accepting
           cvd_compute_client.client_1280x800
           "ins-1" "cf-image" None "aosp_cf_x86_phone-userdebug" "aosp-master"
           "5046769" None None (Some 4)).2
  = [(Some "1280", Some "800", Some "240", Some "4096")].
Proof. vm_compute. reflexivity. Qed.

(** C9, as stated, fails where the call does not get as far as the boot
    disk size: with a machine type the backend rejects, the call that omits
    [blank_data_disk_size_gb] ends in the error of [_CheckMachineSize], not
    in a [TypeError]. *)
Lemma CreateInstance_machine_size_error_first :
  cvd_compute_client.CreateInstance cvd_compute_client.env_machine_too_small
    cvd_compute_client.client_1280x800
    "ins-1" "cf-image" None "aosp_cf_x86_phone-userdebug" "aosp-master"
    "5046769" None None None
  = (Raise (ExternalError "_CheckMachineSize"), []).
Proof. reflexivity. Qed.

(** C9, amended: a call that omits [blank_data_disk_size_gb] (so that it is
    [None]) always fails and submits no creation request; when the machine
    size check passes and the image's size is read, the failure is the
    [TypeError] of adding [None] to that size.  A call that succeeds was
    given an integer. *)
Theorem CreateInstance_blank_size_omitted
    (env : cvd_compute_client.Env) (self : cvd_compute_client.CvdComputeClient)
    (instance image_name : string) (image_project : option string)
    (build_target branch build_id : string)
    (kernel_branch kernel_build_id : option string) :
  (exists e,
      cvd_compute_client.CreateInstance env self instance image_name
        image_project build_target branch build_id kernel_branch
        kernel_build_id None = (Raise e, [])
      /\ (forall image base_size,
             cvd_compute_client._CheckMachineSize env = Ok tt ->
             cvd_compute_client.GetImage env image_name image_project = Ok image ->
             pystr.int (cvd_compute_client.diskSizeGb image) = Ok base_size ->
             e = TypeError))
  /\ (forall blank_data_disk_size_gb requests,
         cvd_compute_client.CreateInstance env self instance image_name
           image_project build_target branch build_id kernel_branch
           kernel_build_id blank_data_disk_size_gb = (Ok tt, requests) ->
         exists size, blank_data_disk_size_gb = Some size).
Proof.
  split.
  - unfold cvd_compute_client.CreateInstance.
    destruct (cvd_compute_client._CheckMachineSize env) as [[]|e0]; simpl;
      [|exists e0; split; [reflexivity|intros; discriminate]].
    destruct (cvd_compute_client.GetImage env image_name image_project)
      as [image|e1]; simpl;
      [|exists e1; split; [reflexivity|intros; discriminate]].
    destruct (pystr.int (cvd_compute_client.diskSizeGb image))
      as [base_size|e2] eqn:Hint; simpl.
    + exists TypeError. split; [reflexivity|auto].
    + exists e2. split; [reflexivity|].
      intros image' base_size' _ HI HS. inversion HI; subst. congruence.
  - intros blank requests H.
    destruct blank as [size|]; [eauto|]. exfalso. revert H.
    unfold cvd_compute_client.CreateInstance.
    destruct (cvd_compute_client._CheckMachineSize env) as [[]|e0]; simpl;
      [|discriminate].
    destruct (cvd_compute_client.GetImage env image_name image_project)
      as [image|e1]; simpl; [|discriminate].
    destruct (pystr.int (cvd_compute_client.diskSizeGb image)); simpl;
      discriminate.
Qed.

Lemma CreateInstance_blank_size_omitted_witness :
  cvd_compute_client.CreateInstance cvd_compute_client.env_accepting
    cvd_compute_client.client_1280x800
    "ins-1" "cf-image" None "aosp_cf_x86_phone-userdebug" "aosp-master"
    "5046769" None None None
  = (Raise TypeError, []).
Proof.
  destruct (proj1 (CreateInstance_blank_size_omitted
                     cvd_compute_client.env_accepting
                     cvd_compute_client.client_1280x800
                     "ins-1" "cf-image" None "aosp_cf_x86_phone-userdebug"
                     "aosp-master" "5046769" None None)) as (e & H & HT).
  rewrite H. f_equal. f_equal.
  apply (HT {| cvd_compute_client.selfLink := "projects/p/global/images/cf-image";
               cvd_compute_client.diskSizeGb := "10" |} 10);
    reflexivity.
Defined.

(** ** GetBaseCmd *)

(** The expectations of [testGetBaseCmdWithInternalIP] and [testGetBaseCmd],
    and the command prefixes of the tests with extra arguments. *)
Lemma GetBaseCmd_ssh_test :
  ssh.GetBaseCmd ssh.usr_bin (ssh.fake_ssh None true) ssh.SSH_BIN
  = "/usr/bin/ssh -i /fake/acloud_rea -q -o UserKnownHostsFile=/dev/null -o StrictHostKeyChecking=no -l fake_user 10.1.1.1"
  /\ ssh.GetBaseCmd ssh.usr_bin (ssh.fake_ssh None false) ssh.SSH_BIN
     = "/usr/bin/ssh -i /fake/acloud_rea -q -o UserKnownHostsFile=/dev/null -o StrictHostKeyChecking=no -l fake_user 1.1.1.1"
  /\ ssh.GetBaseCmd ssh.usr_bin (ssh.fake_ssh None false) ssh.SCP_BIN
     = "/usr/bin/scp -i /fake/acloud_rea -q -o UserKnownHostsFile=/dev/null -o StrictHostKeyChecking=no"
  /\ ssh.GetBaseCmd ssh.usr_bin
       (ssh.fake_ssh (Some ssh.FAKE_EXTRA_ARGS_SSH) false) ssh.SSH_BIN
     = "/usr/bin/ssh -i /fake/acloud_rea -q -o UserKnownHostsFile=/dev/null -o StrictHostKeyChecking=no -o ProxyCommand='ssh fake_user@2.2.2.2 Server 22' -l fake_user 1.1.1.1"
  /\ ssh.GetBaseCmd ssh.usr_bin
       (ssh.fake_ssh (Some ssh.FAKE_EXTRA_ARGS_SSH) false) ssh.SCP_BIN
     = "/usr/bin/scp -i /fake/acloud_rea -q -o UserKnownHostsFile=/dev/null -o StrictHostKeyChecking=no -o ProxyCommand='ssh fake_user@2.2.2.2 Server 22'".
Proof. repeat split; reflexivity. Qed.

Lemma append_assoc (a b c : string) : (a ++ b) ++ c = a ++ b ++ c.
Proof.
  induction a as [|x a IH]; [reflexivity|].
  change (String x ((a ++ b) ++ c) = String x (a ++ b ++ c)). now f_equal.
Qed.

(** C4: for the ssh binary, [GetBaseCmd] is the string
    [<ssh-bin> -i <key> -q -o UserKnownHostsFile=/dev/null
     -o StrictHostKeyChecking=no [<extra-args>] -l <user> <address>], with
    the internal address when [report_internal_ip] is set and the external
    one otherwise; for the scp binary it is the same string without
    [-l <user> <address>]. *)
Theorem GetBaseCmd_format
    (find_executable : ssh.Binary -> string) (self : ssh.Ssh) :
  let options :=
    " -i " ++ ssh.ssh_private_key_path self
    ++ " -q -o UserKnownHostsFile=/dev/null -o StrictHostKeyChecking=no"
    ++ match ssh.extra_args_ssh_tunnel self with
       | Some extra => " " ++ extra
       | None => ""
       end in
  let address :=
    if ssh.report_internal_ip self then ssh.internal (ssh.ip self)
    else ssh.external (ssh.ip self) in
  ssh.GetBaseCmd find_executable self ssh.SSH_BIN
  = find_executable ssh.SSH_BIN ++ options
    ++ " -l " ++ ssh.gce_user self ++ " " ++ address
  /\ ssh.GetBaseCmd find_executable self ssh.SCP_BIN
     = find_executable ssh.SCP_BIN ++ options.
Proof.
  cbv zeta. unfold ssh.GetBaseCmd, ssh._ip.
  destruct (ssh.extra_args_ssh_tunnel self) as [extra|]; simpl.
  - rewrite !append_assoc. split; reflexivity.
  - rewrite !append_assoc. split; reflexivity.
Qed.

(** ** DeleteLocalGoldfishInstance *)

(** The two tests of delete_test.py: with return code 0 the new report holds
    the one deleted entry and its status is SUCCESS; with return code 1 it
    holds an error and its status is FAIL; the creation timestamp is removed
    in both. *)
Lemma DeleteLocalGoldfishInstance_tests :
  let success :=
    delete.DeleteLocalGoldfishInstance (fun _ _ => 0) delete.cannot_kill
      delete.instance_unittest delete.report_new in
  let failure :=
    delete.DeleteLocalGoldfishInstance (fun _ _ => 1) delete.cannot_kill
      delete.instance_unittest delete.report_new in
  delete.deleted success.1
  = [ {| delete.entry_type := "instance"; delete.entry_name := "unittest" |} ]
  /\ delete.status success.1 = delete.SUCCESS
  /\ In (delete.DeleteCreationTimestamp delete.instance_unittest) success.2
  /\ (0 < List.length (delete.errors failure.1))%nat
  /\ delete.status failure.1 = delete.FAIL
  /\ In (delete.DeleteCreationTimestamp delete.instance_unittest) failure.2.
Proof. cbv zeta. simpl. repeat split; auto. Qed.




(** * Further properties *)

(** ** Splitting and joining *)

Section split_join_facts.
Import pystr.
Variable sep : ascii.

Lemma append_cons (c : ascii) (a b : string) :
  String c a ++ b = String c (a ++ b).
Proof. reflexivity. Qed.

Lemma split_no_separator (s : string) :
  contains sep s = false -> split sep s = [s].
Proof.
  induction s as [|c s IH]; simpl; [reflexivity|].
  destruct (Ascii.eqb c sep); [discriminate|].
  intros H. now rewrite (IH H).
Qed.

Lemma split_append (a b : string) :
  contains sep a = false ->
  split sep (a ++ String sep b) = a :: split sep b.
Proof.
  induction a as [|c a IH]; intros H.
  - change (EmptyString ++ String sep b) with (String sep b). simpl.
    now rewrite Ascii.eqb_refl.
  - rewrite append_cons. simpl in *.
    destruct (Ascii.eqb c sep); [discriminate|].
    now rewrite (IH H).
Qed.

Lemma contains_append (a b : string) :
  contains sep (a ++ b) = (contains sep a || contains sep b)%bool.
Proof.
  induction a as [|c a IH]; [reflexivity|].
  rewrite append_cons. simpl. destruct (Ascii.eqb c sep); auto.
Qed.

Lemma split_join (l : list string) :
  l <> [] ->
  Forall (fun s => contains sep s = false) l ->
  split sep (join (String sep "") l) = l.
Proof.
  induction l as [|a l IH]; intros NE HF; [congruence|].
  inversion HF as [|? ? Ha Hl]; subst.
  destruct l as [|b l].
  - simpl. now apply split_no_separator.
  - change (join (String sep "") (a :: b :: l))
      with (a ++ String sep "" ++ join (String sep "") (b :: l)).
    change (String sep "" ++ join (String sep "") (b :: l))
      with (String sep (join (String sep "") (b :: l))).
    rewrite split_append by exact Ha. f_equal. now apply IH.
Qed.

End split_join_facts.

(** ** ParseHWPropertyArgs: when it succeeds and what the dict holds *)

Section ParseHWPropertyArgs_more.
Import create_common.
Variable kv : ascii.

Lemma loop_Ok_iff (items : list string) :
  forall hw_dict : gmap string string,
    (exists hw_dict', ParseHWPropertyArgs_loop kv hw_dict items = Ok hw_dict')
    <-> Forall (fun i => accepted kv i = true) items.
Proof.
  induction items as [|i items IH]; intros hw_dict; simpl.
  - split; [constructor|eauto].
  - destruct (item_kinds kv i) as [[K M]|[[K M]|A]].
    + destruct (item_lacks kv hw_dict i K) as [msg ->]. simpl.
      split; [intros [d H]; discriminate|].
      intros H. inversion H as [|? ? A _]; subst.
      unfold accepted in A. rewrite K in A. discriminate.
    + rewrite (item_many kv hw_dict i M). simpl.
      split; [intros [d H]; discriminate|].
      intros H. inversion H as [|? ? A _]; subst.
      unfold accepted in A. rewrite M, andb_comm in A. discriminate.
    + destruct (item_accepted kv hw_dict i A) as (key & value & _ & ->). simpl.
      rewrite IH. split; [now constructor|].
      intros H. now inversion H.
Qed.

Lemma loop_entries (items : list string) :
  forall (hw_dict hw_dict' : gmap string string) k v,
    ParseHWPropertyArgs_loop kv hw_dict items = Ok hw_dict' ->
    hw_dict' !! k = Some v ->
    hw_dict !! k = Some v
    \/ exists item key value,
        In item items /\ pystr.split kv item = [key; value]
        /\ k = pystr.strip key /\ v = pystr.strip value.
Proof.
  induction items as [|i items IH]; intros hw_dict hw_dict' k v H Hk;
    simpl in H.
  - inversion H; subst. auto.
  - destruct (item_kinds kv i) as [[K M]|[[K M]|A]].
    + destruct (item_lacks kv hw_dict i K) as [msg E]. rewrite E in H.
      discriminate.
    + rewrite (item_many kv hw_dict i M) in H. discriminate.
    + destruct (item_accepted kv hw_dict i A) as (key & value & Hs & E).
      rewrite E in H. simpl in H.
      destruct (IH _ _ _ _ H Hk) as [Hd|(item & key' & value' & Hin & R)].
      * destruct (decide (pystr.strip key = k)) as [<-|NE].
        -- rewrite lookup_insert_eq in Hd. inversion Hd; subst.
           right. exists i, key, value. simpl. auto.
        -- rewrite lookup_insert_ne in Hd by exact NE. auto.
      * right. exists item, key', value'. simpl. tauto.
Qed.

End ParseHWPropertyArgs_more.

(** X1: [ParseHWPropertyArgs] returns a dict exactly when every item of the
    input has one separator, a key and a value; otherwise it raises. *)
Theorem ParseHWPropertyArgs_returns_iff (dict_str : string) :
  (exists hw_dict,
      create_common.ParseHWPropertyArgs dict_str "," ":" = Ok hw_dict)
  <-> Forall (fun item => create_common.accepted ":" item = true)
        (create_common.items_of "," dict_str).
Proof. rewrite ParseHWPropertyArgs_items. apply loop_Ok_iff. Qed.

(** X2: the dict that [ParseHWPropertyArgs] returns holds nothing but what
    the items say: every entry is the stripped key and the stripped value
    of one of the items. *)
Theorem ParseHWPropertyArgs_entries
    (dict_str : string) (hw_dict : gmap string string) (k v : string) :
  create_common.ParseHWPropertyArgs dict_str "," ":" = Ok hw_dict ->
  hw_dict !! k = Some v ->
  exists item key value,
    In item (create_common.items_of "," dict_str)
    /\ pystr.split ":" item = [key; value]
    /\ k = pystr.strip key /\ v = pystr.strip value.
Proof.
  rewrite ParseHWPropertyArgs_items. intros H Hk.
  destruct (loop_entries ":" _ _ _ _ _ H Hk) as [E|R]; [|exact R].
  rewrite lookup_empty in E. discriminate.
Qed.

Lemma ParseHWPropertyArgs_entries_witness :
  exists item key value,
    In item (create_common.items_of "," "cpu: 2 ,dpi:240")
    /\ pystr.split ":" item = [key; value]
    /\ "cpu" = pystr.strip key /\ "2" = pystr.strip value.
Proof.
  apply (ParseHWPropertyArgs_entries "cpu: 2 ,dpi:240"
           {[ "cpu" := "2"; "dpi" := "240" ]}).
  - vm_compute. reflexivity.
  - vm_compute. reflexivity.
Defined.

Section round_trip_facts.
Import create_common hw_property.

Lemma written_item_parsed (hw_dict : gmap string string) (pair : string * string) :
  writable pair.1 -> writable pair.2 ->
  ParseHWPropertyArgs_item ":" hw_dict (written_item pair)
  = Ok (<[pystr.strip pair.1 := pystr.strip pair.2]> hw_dict).
Proof.
  destruct pair as [k v]. simpl. intros (Hk & _ & Hk') (Hv & _ & Hv').
  unfold ParseHWPropertyArgs_item, written_item. simpl.
  rewrite contains_append. simpl. rewrite orb_true_r. simpl.
  change (k ++ ":" ++ v) with (k ++ String ":" v).
  rewrite split_append by exact Hk'. rewrite split_no_separator by exact Hv'.
  destruct k; [congruence|]. destruct v; [congruence|]. reflexivity.
Qed.

Lemma written_item_no_comma (pair : string * string) :
  writable pair.1 -> writable pair.2 ->
  pystr.contains "," (written_item pair) = false.
Proof.
  intros (_ & Hk & _) (_ & Hv & _). unfold written_item.
  rewrite !contains_append, Hk, Hv. reflexivity.
Qed.

Lemma loop_written (pairs : list (string * string)) :
  forall hw_dict : gmap string string,
    Forall (fun pair => writable pair.1 /\ writable pair.2) pairs ->
    ParseHWPropertyArgs_loop ":" hw_dict (written_item <$> pairs)
    = Ok (foldl (fun d pair => <[pystr.strip pair.1 := pystr.strip pair.2]> d)
            hw_dict pairs).
Proof.
  induction pairs as [|pair pairs IH]; intros hw_dict HF; simpl;
    [reflexivity|].
  inversion HF as [|? ? [H1 H2] HF']; subst.
  rewrite written_item_parsed by assumption. simpl. now apply IH.
Qed.

End round_trip_facts.

(** X3: writing pairs down as [key:value] items joined by commas and
    parsing the string gives the pairs back, keys and values stripped, a
    later pair replacing an earlier one of the same key; the keys and
    values must not be empty nor hold a separator. *)
Theorem ParseHWPropertyArgs_round_trip (pairs : list (string * string)) :
  Forall (fun pair => hw_property.writable pair.1 /\ hw_property.writable pair.2)
    pairs ->
  create_common.ParseHWPropertyArgs
    (pystr.join "," (hw_property.written_item <$> pairs)) "," ":"
  = Ok (foldl (fun d pair => <[pystr.strip pair.1 := pystr.strip pair.2]> d)
          ∅ pairs).
Proof.
  intros HF. destruct pairs as [|pair pairs]; [reflexivity|].
  unfold create_common.ParseHWPropertyArgs.
  assert (NE : pystr.is_empty
                 (pystr.join "," (hw_property.written_item <$> pair :: pairs))
               = false).
  { inversion HF as [|? ? [[Hk _] _] _]; subst.
    destruct pair as [k v]. simpl in Hk.
    destruct k as [|c k]; [congruence|]. destruct pairs; reflexivity. }
  rewrite NE. rewrite split_join.
  - now apply loop_written.
  - discriminate.
  - rewrite Forall_fmap. eapply Forall_impl; [exact HF|].
    intros p [H1 H2]. now apply written_item_no_comma.
Qed.

Lemma ParseHWPropertyArgs_round_trip_witness :
  create_common.ParseHWPropertyArgs "cpu:2,dpi: 240,cpu:4" "," ":"
  = Ok {[ "cpu" := "4"; "dpi" := "240" ]}.
Proof.
  change (create_common.ParseHWPropertyArgs
            (pystr.join ","
               (hw_property.written_item
                  <$> [("cpu", "2"); ("dpi", " 240"); ("cpu", "4")])) "," ":"
          = Ok {[ "cpu" := "4"; "dpi" := "240" ]}).
  rewrite ParseHWPropertyArgs_round_trip.
  - vm_compute. reflexivity.
  - repeat constructor; simpl; discriminate.
Defined.

(** ** GetAnswerFromList and VerifyLocalImageArtifactsExist *)

Section GetAnswerFromList_facts.
Import create_common_io.
Variable answer_list : list string.

Local Abbreviation max_choice := (Z.of_nat (List.length answer_list)).

Lemma loop_passed_over (skipped lines : list string) :
  Forall (fun line => passed_over max_choice line = true) skipped ->
  exists written,
    GetAnswerFromList_loop answer_list (skipped ++ lines)
    = let '(r, remaining, written') := GetAnswerFromList_loop answer_list lines in
      (r, remaining, (written ++ written')%list).
Proof.
  induction skipped as [|line skipped IH]; intros HF.
  - exists []. simpl. now destruct (GetAnswerFromList_loop answer_list lines) as [[? ?] ?].
  - inversion HF as [|? ? Hl HF']; subst.
    destruct (IH HF') as [written E]. unfold passed_over in Hl.
    simpl. rewrite E.
    destruct (GetAnswerFromList_loop answer_list lines) as [[r remaining] written'].
    destruct (pystr.int line) as [choice|e].
    + destruct (choice =? 0) eqn:Z0.
      * apply Z.eqb_eq in Z0. subst. simpl in Hl.
        destruct (max_choice <? 0) eqn:M; [|discriminate].
        apply Z.ltb_lt in M. lia.
      * rewrite Hl. eexists (_ :: _ :: written). reflexivity.
    + eexists (_ :: _ :: written). reflexivity.
Qed.

Lemma loop_membership (lines : list string) :
  match (GetAnswerFromList_loop answer_list lines).1.1 with
  | Ok item => In item answer_list
  | Raise e => e = SystemExit \/ e = EOFError
  end.
Proof.
  induction lines as [|line lines IH]; simpl; [auto|].
  destruct (GetAnswerFromList_loop answer_list lines) as [[r remaining] written].
  destruct (pystr.int line) as [choice|e]; [|exact IH].
  destruct (choice =? 0) eqn:Z0; simpl; [auto|]. apply Z.eqb_neq in Z0.
  destruct ((choice <? 0) || (max_choice <? choice))%bool eqn:B; [exact IH|].
  simpl. unfold getitem.
  apply orb_false_iff in B as [B1 B2].
  apply Z.ltb_ge in B1, B2.
  destruct (answer_list !! Z.to_nat (choice - 1)) as [item|] eqn:L; simpl.
  - apply list_elem_of_In. eapply list_elem_of_lookup_2, L.
  - apply lookup_ge_None in L. lia.
Qed.

End GetAnswerFromList_facts.

(** X4: [GetAnswerFromList] passes over every line that is not an integer
    or is out of range, and returns the answer of the first line that is an
    integer between 1 and the number of answers, leaving the lines after it
    unread. *)
Theorem GetAnswerFromList_first_valid_choice
    (answer_list skipped : list string) (line : string) (rest : list string)
    (choice : Z) :
  Forall (fun l =>
            create_common_io.passed_over (Z.of_nat (List.length answer_list)) l
            = true) skipped ->
  pystr.int line = Ok choice ->
  1 <= choice <= Z.of_nat (List.length answer_list) ->
  exists item written,
    answer_list !! Z.to_nat (choice - 1) = Some item
    /\ create_common_io.GetAnswerFromList answer_list (skipped ++ line :: rest)
       = (Ok item, rest, written).
Proof.
  intros HF Hint Hrange.
  destruct (lookup_lt_is_Some_2 answer_list (Z.to_nat (choice - 1)))
    as [item Hitem]; [lia|].
  destruct (loop_passed_over answer_list skipped (line :: rest) HF)
    as [written E].
  unfold create_common_io.GetAnswerFromList. rewrite E. simpl.
  rewrite Hint.
  destruct (choice =? 0) eqn:Z0; [apply Z.eqb_eq in Z0; lia|].
  destruct (choice <? 0) eqn:B1; [apply Z.ltb_lt in B1; lia|].
  destruct (Z.of_nat (List.length answer_list) <? choice) eqn:B2;
    [apply Z.ltb_lt in B2; lia|].
  simpl. unfold create_common_io.getitem. rewrite Hitem. eauto.
Qed.

Lemma GetAnswerFromList_first_valid_choice_witness :
  exists item written,
    ["a"; "b"] !! Z.to_nat (2 - 1) = Some item
    /\ create_common_io.GetAnswerFromList ["a"; "b"]
         (["x"; "7"; "-1"] ++ " 2 " :: ["1"])
       = (Ok item, ["1"], written).
Proof.
  apply (GetAnswerFromList_first_valid_choice ["a"; "b"] ["x"; "7"; "-1"]
           " 2 " ["1"] 2).
  - repeat constructor.
  - reflexivity.
  - simpl. lia.
Defined.

(** X5: a line that reads as 0, after lines that are passed over, ends
    [GetAnswerFromList] in [SystemExit] with the lines after it unread; and
    when every line is passed over, it ends in the [EOFError] of reading
    past the input. *)
Theorem GetAnswerFromList_exit
    (answer_list skipped : list string) (line : string) (rest : list string) :
  Forall (fun l =>
            create_common_io.passed_over (Z.of_nat (List.length answer_list)) l
            = true) skipped ->
  (pystr.int line = Ok 0 ->
   exists written,
     create_common_io.GetAnswerFromList answer_list (skipped ++ line :: rest)
     = (Raise SystemExit, rest, written))
  /\ (exists written,
         create_common_io.GetAnswerFromList answer_list skipped
         = (Raise EOFError, [], written)).
Proof.
  intros HF. split.
  - intros Hint.
    destruct (loop_passed_over answer_list skipped (line :: rest) HF)
      as [written E].
    unfold create_common_io.GetAnswerFromList. rewrite E. simpl.
    rewrite Hint. simpl. eauto.
  - destruct (loop_passed_over answer_list skipped [] HF) as [written E].
    rewrite app_nil_r in E.
    unfold create_common_io.GetAnswerFromList. rewrite E. simpl. eauto.
Qed.

Lemma GetAnswerFromList_exit_witness :
  (exists written,
      create_common_io.GetAnswerFromList ["a"; "b"] (["3"; "no"] ++ "0" :: ["1"])
      = (Raise SystemExit, ["1"], written))
  /\ (exists written,
         create_common_io.GetAnswerFromList ["a"; "b"] ["3"; "no"]
         = (Raise EOFError, [], written)).
Proof.
  destruct (GetAnswerFromList_exit ["a"; "b"] ["3"; "no"] "0" ["1"])
    as [H1 H2].
  - repeat constructor.
  - split; [apply H1; reflexivity|exact H2].
Defined.

(** X6: whatever the user types, [GetAnswerFromList] returns one of the
    answers of the list or ends in [SystemExit] or [EOFError]; it never
    indexes outside the list, and on an empty list it never returns. *)
Theorem GetAnswerFromList_member (answer_list lines : list string) :
  match (create_common_io.GetAnswerFromList answer_list lines).1.1 with
  | Ok item => In item answer_list
  | Raise e => e = SystemExit \/ e = EOFError
  end.
Proof.
  pose proof (loop_membership answer_list lines) as H.
  unfold create_common_io.GetAnswerFromList.
  destruct (create_common_io.GetAnswerFromList_loop answer_list lines)
    as [[r remaining] written].
  exact H.
Qed.

(** X7: [VerifyLocalImageArtifactsExist] returns only a path that the
    pattern [<dir>/*img*.zip] matched; with no match it raises
    [GetLocalImageError] and with one match it returns it, in both cases
    without reading the input or writing; with several matches any failure
    is the [SystemExit] or [EOFError] of the selection. *)
Theorem VerifyLocalImageArtifactsExist_outcome
    (glob : string -> list string) (local_image_dir : string)
    (lines : list string) :
  let images := glob (os_path.join local_image_dir ["*img*.zip"]) in
  let result :=
    create_common_io.VerifyLocalImageArtifactsExist glob local_image_dir lines in
  match result.1.1 with
  | errors.Returned image_path => In image_path images
  | errors.Raised e =>
      (images = []
       /\ e = errors.GetLocalImageError
                ("No images matching pattern ("
                 ++ os_path.join local_image_dir ["*img*.zip"] ++ ") in "
                 ++ local_image_dir))
      \/ ((2 <= List.length images)%nat
          /\ (e = errors.Propagated SystemExit \/ e = errors.Propagated EOFError))
  end
  /\ ((List.length images <= 1)%nat -> result.1.2 = lines /\ result.2 = []).
Proof.
  cbv zeta. unfold create_common_io.VerifyLocalImageArtifactsExist.
  destruct (glob (os_path.join local_image_dir ["*img*.zip"]))
    as [|image [|image' images]] eqn:G; simpl.
  - split; auto.
  - split; auto.
  - pose proof (loop_membership (image :: image' :: images) lines) as H.
    unfold create_common_io.GetAnswerFromList.
    destruct (create_common_io.GetAnswerFromList_loop
                (image :: image' :: images) lines)
      as [[r remaining] written].
    simpl in *. split; [|lia].
    destruct r as [item|e]; simpl; [exact H|].
    right. split; [lia|]. destruct H as [->| ->]; auto.
Qed.

Lemma VerifyLocalImageArtifactsExist_outcome_witness :
  In "/out/aosp_cf_x86_phone-img-eng.user.zip" create_common_io.two_images.
Proof.
  exact (proj1 (VerifyLocalImageArtifactsExist_outcome
                  create_common_io.glob_two "/out" ["2"])).
Defined.

(** ** More on the download directory confirmation loop *)

Section ConfirmDownloadRemoteImageDir_more.
Import remote_image_local_instance.
Variable env : Env.

Ltac run :=
  cbv [mbind os_path_exists os_statvfs InteractWithQuestion os_makedirs
       print sys_exit record raise ret set_files negb orb files stdin log].

(** The answers one pass takes, what it does to the files, and where the
    directory it hands on comes from. *)
Lemma body_provenance (download_dir : string) (w : World) :
  match _ConfirmDownloadRemoteImageDir_body env download_dir w with
  | (r, w') =>
      exists consumed,
        stdin w = (consumed ++ stdin w')%list
        /\ (files w' = files w
            \/ (Exists (fun a => pystr.lower a = "y") consumed
                /\ files w !! expanduser env download_dir = None
                /\ files w' = <[expanduser env download_dir := Dir]> (files w)))
        /\ match r with
           | Ok (Return d) => d = expanduser env download_dir
           | Ok (Continue d) => In d consumed
           | Raise _ => True
           end
  end.
Proof.
  unfold _ConfirmDownloadRemoteImageDir_body.
  set (d := expanduser env download_dir).
  destruct w as [fs input lg]. run.
  destruct (fs !! d) as [k|] eqn:P; run.
  - rewrite P; run.
    destruct (available_space_of (statvfs_of env d) <? _REQUIRED_SPACE); run.
    + destruct input as [|a rest]; run; [exists []; auto|].
      destruct (String.eqb (pystr.lower a) "q"); run;
        exists [a]; simpl; auto.
    + exists []; auto.
  - destruct input as [|a rest]; run; [exists []; auto|].
    destruct (String.eqb (pystr.lower a) "y") eqn:Y; run;
      [|exists [a]; simpl; auto].
    apply String.eqb_eq in Y.
    rewrite P; run.
    destruct (makedirs_denied env d); run; [exists [a]; simpl; auto|].
    rewrite lookup_insert_eq; run.
    destruct (available_space_of (statvfs_of env d) <? _REQUIRED_SPACE); run.
    + destruct rest as [|b rest']; run.
      * exists [a]. simpl. split; [reflexivity|]. split; [|exact I].
        right. split; [now constructor|auto].
      * destruct (String.eqb (pystr.lower b) "q"); run;
          exists [a; b]; simpl;
          (split; [reflexivity|]); (split; [|auto]);
          right; (split; [now constructor|auto]).
    + exists [a]. simpl. split; [reflexivity|]. split; [|reflexivity].
      right. split; [now constructor|auto].
Qed.

Lemma loop_provenance (fuel : nat) :
  forall (download_dir : string) (w : World) r w',
    _ConfirmDownloadRemoteImageDir_loop fuel env download_dir w = Some (r, w') ->
    exists consumed,
      stdin w = (consumed ++ stdin w')%list
      /\ (Forall (fun a => pystr.lower a <> "y") consumed -> files w' = files w)
      /\ (forall p k, files w !! p = Some k -> files w' !! p = Some k)
      /\ (forall d, r = Ok d ->
            d = expanduser env download_dir
            \/ exists a, In a consumed /\ d = expanduser env a).
Proof.
  induction fuel as [|fuel IH]; intros d w r w' H; simpl in H; [discriminate|].
  pose proof (body_provenance d w) as B.
  destruct (_ConfirmDownloadRemoteImageDir_body env d w) as [[[p|d']|e] w1];
    destruct B as (consumed & Hin & Hfiles & Hd).
  - inversion H; subst. exists consumed. split; [exact Hin|].
    split; [|split].
    + intros HF. destruct Hfiles as [E|(Hy & _)]; [exact E|].
      exfalso. apply Exists_exists in Hy as (a & Ha & Hy).
      rewrite Forall_forall in HF. exact (HF a Ha Hy).
    + intros q k Hq. destruct Hfiles as [->|(_ & HN & ->)]; [exact Hq|].
      rewrite lookup_insert_ne; [exact Hq|]. congruence.
    + intros d0 E. inversion E; subst. auto.
  - apply IH in H as (consumed' & Hin' & Hno & Hmono & Hprov).
    exists (consumed ++ consumed')%list. split; [|split; [|split]].
    + rewrite Hin, Hin'. now rewrite app_assoc.
    + intros HF. apply Forall_app in HF as [HF1 HF2].
      rewrite (Hno HF2). destruct Hfiles as [E|(Hy & _)]; [exact E|].
      exfalso. apply Exists_exists in Hy as (a & Ha & Hy).
      rewrite Forall_forall in HF1. exact (HF1 a Ha Hy).
    + intros q k Hq. apply Hmono.
      destruct Hfiles as [->|(_ & HN & ->)]; [exact Hq|].
      rewrite lookup_insert_ne; [exact Hq|]. congruence.
    + intros d0 E. right. destruct (Hprov d0 E) as [->|(a & Ha & ->)].
      * exists d'. split; [|reflexivity]. apply in_or_app. auto.
      * exists a. split; [|reflexivity]. apply in_or_app. auto.
  - inversion H; subst. exists consumed. split; [exact Hin|].
    split; [|split].
    + intros HF. destruct Hfiles as [E|(Hy & _)]; [exact E|].
      exfalso. apply Exists_exists in Hy as (a & Ha & Hy).
      rewrite Forall_forall in HF. exact (HF a Ha Hy).
    + intros q k Hq. destruct Hfiles as [->|(_ & HN & ->)]; [exact Hq|].
      rewrite lookup_insert_ne; [exact Hq|]. congruence.
    + intros d0 E. discriminate.
Qed.

Lemma body_enough (download_dir : string) (w : World) :
  is_Some (files w !! expanduser env download_dir) ->
  enough_space env (expanduser env download_dir) ->
  _ConfirmDownloadRemoteImageDir_body env download_dir w
  = (Ok (Return (expanduser env download_dir)), w).
Proof.
  intros [k P] HS. unfold enough_space in HS. apply Z.ltb_ge in HS.
  unfold _ConfirmDownloadRemoteImageDir_body.
  set (d := expanduser env download_dir) in *.
  destruct w as [fs input lg]. simpl in P. run.
  rewrite P; run. rewrite P; run. rewrite HS. reflexivity.
Qed.

End ConfirmDownloadRemoteImageDir_more.

(** X8: a download directory that exists and has the required space is
    returned at once, user-expanded and otherwise unchanged: nothing is
    asked, created or logged. *)
Theorem ConfirmDownloadRemoteImageDir_unchanged
    (env : remote_image_local_instance.Env) (download_dir : string)
    (w : remote_image_local_instance.World) :
  let expanded := remote_image_local_instance.expanduser env download_dir in
  is_Some (remote_image_local_instance.files w !! expanded) ->
  remote_image_local_instance.enough_space env expanded ->
  remote_image_local_instance._ConfirmDownloadRemoteImageDir env download_dir w
  = Some (Ok expanded, w).
Proof.
  cbv zeta. intros HP HS.
  unfold remote_image_local_instance._ConfirmDownloadRemoteImageDir. simpl.
  now rewrite body_enough.
Qed.

Lemma ConfirmDownloadRemoteImageDir_unchanged_witness :
  remote_image_local_instance._ConfirmDownloadRemoteImageDir
    remote_image_local_instance.env_fine "/big"
    remote_image_local_instance.world_big
  = Some (Ok "/big", remote_image_local_instance.world_big).
Proof.
  apply (ConfirmDownloadRemoteImageDir_unchanged
           remote_image_local_instance.env_fine "/big"
           remote_image_local_instance.world_big).
  - vm_compute. eauto.
  - vm_compute. discriminate.
Defined.

(** X9: the directory [_ConfirmDownloadRemoteImageDir] returns is the
    user-expanded starting directory or a user-expanded answer of the user;
    it is no path of the function's own making. *)
Theorem ConfirmDownloadRemoteImageDir_provenance
    (env : remote_image_local_instance.Env) (download_dir d : string)
    (w w' : remote_image_local_instance.World) :
  remote_image_local_instance._ConfirmDownloadRemoteImageDir env download_dir w
  = Some (Ok d, w') ->
  d = remote_image_local_instance.expanduser env download_dir
  \/ exists answer,
      In answer (remote_image_local_instance.stdin w)
      /\ d = remote_image_local_instance.expanduser env answer.
Proof.
  intros H. apply loop_provenance in H as (consumed & Hin & _ & _ & Hprov).
  destruct (Hprov d eq_refl) as [->|(a & Ha & ->)]; [auto|].
  right. exists a. split; [|reflexivity]. rewrite Hin. apply in_or_app. auto.
Qed.

Lemma ConfirmDownloadRemoteImageDir_provenance_witness :
  "/big" = "/small"
  \/ exists answer, In answer ["/big"; "Y"] /\ "/big" = answer.
Proof.
  apply (ConfirmDownloadRemoteImageDir_provenance
           remote_image_local_instance.env_fine "/small" "/big"
           remote_image_local_instance.world_small
           (from_option snd remote_image_local_instance.world_small
              (remote_image_local_instance._ConfirmDownloadRemoteImageDir
                 remote_image_local_instance.env_fine "/small"
                 remote_image_local_instance.world_small))).
  vm_compute. reflexivity.
Defined.

(** X10: [_ConfirmDownloadRemoteImageDir] removes no path, and it creates a
    directory only on the user's "y": when no answer of the user is a "y"
    or "Y", the files are as they were. *)
Theorem ConfirmDownloadRemoteImageDir_files
    (env : remote_image_local_instance.Env) (download_dir : string)
    (w w' : remote_image_local_instance.World) (r : Result string) :
  remote_image_local_instance._ConfirmDownloadRemoteImageDir env download_dir w
  = Some (r, w') ->
  (forall path kind,
      remote_image_local_instance.files w !! path = Some kind ->
      remote_image_local_instance.files w' !! path = Some kind)
  /\ (Forall (fun answer => pystr.lower answer <> "y")
        (remote_image_local_instance.stdin w) ->
      remote_image_local_instance.files w'
      = remote_image_local_instance.files w).
Proof.
  intros H. apply loop_provenance in H as (consumed & Hin & Hno & Hmono & _).
  split; [exact Hmono|].
  intros HF. apply Hno. rewrite Hin in HF. now apply Forall_app in HF as [HF _].
Qed.

Lemma ConfirmDownloadRemoteImageDir_files_witness :
  remote_image_local_instance.files
    (from_option snd remote_image_local_instance.world_small
       (remote_image_local_instance._ConfirmDownloadRemoteImageDir
          remote_image_local_instance.env_fine "/small"
          remote_image_local_instance.world_small))
    !! "/small" = Some remote_image_local_instance.Dir.
Proof.
  apply (proj1 (ConfirmDownloadRemoteImageDir_files
                  remote_image_local_instance.env_fine "/small"
                  remote_image_local_instance.world_small
                  (from_option snd remote_image_local_instance.world_small
                     (remote_image_local_instance._ConfirmDownloadRemoteImageDir
                        remote_image_local_instance.env_fine "/small"
                        remote_image_local_instance.world_small))
                  (Ok "/big") ltac:(vm_compute; reflexivity))).
  vm_compute. reflexivity.
Defined.

(** ** More on the download, unpack and ACL pipeline *)

Section pipeline_more.
Import remote_image_local_instance RemoteImageLocalInstance.
Variable env : Env.

Ltac run :=
  cbv [mbind os_path_exists os_remove AndroidBuildClient
       build_client_DownloadArtifact utils_Decompress subprocess_check_call
       for_each record raise ret set_files negb orb files stdin log].

Lemma DownloadRemoteImage_calls (build_target build_id extract_path : string)
    (w : World) :
  match _DownloadRemoteImage env build_target build_id extract_path w with
  | (r, w') =>
      exists n,
        log w' = (log w
                  ++ take n (download_calls build_target build_id extract_path))%list
        /\ stdin w' = stdin w
        /\ (r = Ok tt -> n = 7%nat)
  end.
Proof.
  unfold _DownloadRemoteImage, download_calls. cbv zeta.
  set (image := hd "" (pystr.split "-" build_target) ++ "-img-" ++ build_id ++ ".zip").
  destruct w as [fs input lg]. run.
  destruct (credentials_ok env);
    [|exists 1%nat; simpl; split; [reflexivity|split; [reflexivity|discriminate]]].
  destruct (download_fails env build_target build_id _CVD_HOST_PACKAGE);
    [exists 2%nat; simpl; rewrite <- !app_assoc;
     split; [reflexivity|split; [reflexivity|discriminate]]|].
  destruct (archive_members env (os_path.join extract_path [_CVD_HOST_PACKAGE]));
    [|exists 3%nat; simpl; rewrite <- !app_assoc;
      split; [reflexivity|split; [reflexivity|discriminate]]].
  match goal with
  | |- context [match ?m !! ?p with _ => _ end] => destruct (m !! p) as [[|]|]
  end;
  (destruct (download_fails env build_target build_id image);
   [exists 5%nat; simpl; rewrite <- !app_assoc;
    split; [reflexivity|split; [reflexivity|discriminate]]|]);
  (destruct (archive_members env (os_path.join extract_path [image]));
   [|exists 6%nat; simpl; rewrite <- !app_assoc;
     split; [reflexivity|split; [reflexivity|discriminate]]]);
  match goal with
  | |- context [match ?m !! ?p with _ => _ end] => destruct (m !! p) as [[|]|]
  end;
  exists 7%nat; simpl; rewrite <- !app_assoc;
  (split; [reflexivity|split; [reflexivity|reflexivity]]).
Qed.

Lemma UnpackBootImage_run (extract_path : string) (w : World) :
  let bootimg_path := os_path.join extract_path [_BOOT_IMAGE] in
  let cmd := UNPACK_BOOTIMG_CMD bootimg_path extract_path in
  _UnpackBootImage env extract_path w
  = match files w !! bootimg_path with
    | None =>
        (Raise (BootImgDoesNotExist
                  (_BOOT_IMAGE ++ " does not exist in " ++ bootimg_path)), w)
    | Some _ =>
        if returncode env cmd =? 0 then
          (Ok tt,
           {| files := files w
                       ∪ new_files ((fun n => os_path.join extract_path [n])
                                      <$> unpacked_names env);
              stdin := stdin w;
              log := (log w ++ [CheckCall cmd])%list |})
        else
          (Raise (UnpackBootImageError
                    ("Failed to unpack boot.img: "
                     ++ str_CalledProcessError (returncode env cmd) cmd)),
           with_log w [CheckCall cmd])
    end.
Proof.
  cbv zeta. unfold _UnpackBootImage, mbind at 1, os_path_exists.
  destruct (files w !! os_path.join extract_path [_BOOT_IMAGE]); simpl;
    [|reflexivity].
  unfold subprocess_check_call, mbind, record, ret, raise, set_files, with_log.
  destruct (returncode env _ =? 0); reflexivity.
Qed.

(** The steps of a call that finds no extraction directory. *)
Lemma DownloadAndProcessImageFiles_steps (avd_spec : AVDSpec) (w : World) :
  let extract_path := extract_path_of avd_spec in
  files w !! extract_path = None ->
  _DownloadAndProcessImageFiles env avd_spec w
  = if makedirs_denied env extract_path
    then (Raise OSError, with_log w [Makedirs extract_path])
    else
      let w1 := {| files := <[extract_path := Dir]> (files w);
                   stdin := stdin w;
                   log := (log w ++ [Makedirs extract_path])%list |} in
      match _DownloadRemoteImage env (build_target (remote_image avd_spec))
              (build_id (remote_image avd_spec)) extract_path w1 with
      | (Raise e, w2) => (Raise e, w2)
      | (Ok _, w2) =>
          match _UnpackBootImage env extract_path w2 with
          | (Raise e, w3) => (Raise e, w3)
          | (Ok _, w3) =>
              match _AclCfImageFiles env extract_path w3 with
              | (Raise e, w4) => (Raise e, w4)
              | (Ok _, w4) => (Ok extract_path, w4)
              end
          end
      end.
Proof.
  cbv zeta. intros P. unfold _DownloadAndProcessImageFiles.
  cbv [mbind ret raise os_makedirs record os_path_exists set_files negb orb
       with_log].
  cbn [files stdin log]. rewrite !P. cbv beta iota. cbn [files stdin log].
  rewrite ?P.
  destruct (makedirs_denied env (extract_path_of avd_spec)); [reflexivity|].
  cbv beta iota. cbn [files stdin log].
  destruct (_DownloadRemoteImage env _ _ _ _) as [[[]|e] w2]; [|reflexivity].
  destruct (_UnpackBootImage env _ w2) as [[[]|e] w3]; [|reflexivity].
  destruct (_AclCfImageFiles env _ w3) as [[[]|e] w4]; reflexivity.
Qed.

End pipeline_more.


(** X12: whatever fails, the calls [_DownloadRemoteImage] makes are an
    initial segment of: set up the client, then download, decompress and
    remove [cvd-host_package.tar.gz], then download, decompress and remove
    [<target up to its first "-">-img-<build id>.zip], each into the
    extraction directory; when it returns, all seven were made. *)
Theorem DownloadRemoteImage_calls_in_order
    (env : remote_image_local_instance.Env)
    (build_target build_id extract_path : string)
    (w w' : remote_image_local_instance.World) (r : Result unit) :
  remote_image_local_instance._DownloadRemoteImage env build_target build_id
    extract_path w = (r, w') ->
  let image :=
    hd "" (pystr.split "-" build_target) ++ "-img-" ++ build_id ++ ".zip" in
  let host_file := os_path.join extract_path ["cvd-host_package.tar.gz"] in
  let image_file := os_path.join extract_path [image] in
  let calls :=
    [remote_image_local_instance.CreateClient;
     remote_image_local_instance.DownloadArtifact build_target build_id
       "cvd-host_package.tar.gz" host_file;
     remote_image_local_instance.Decompress host_file extract_path;
     remote_image_local_instance.Remove host_file;
     remote_image_local_instance.DownloadArtifact build_target build_id
       image image_file;
     remote_image_local_instance.Decompress image_file extract_path;
     remote_image_local_instance.Remove image_file] in
  exists n,
    remote_image_local_instance.log w'
    = (remote_image_local_instance.log w ++ take n calls)%list
    /\ (r = Ok tt ->
        remote_image_local_instance.log w'
        = (remote_image_local_instance.log w ++ calls)%list).
Proof.
  intros H. cbv zeta.
  pose proof (DownloadRemoteImage_calls env build_target build_id extract_path w)
    as L.
  rewrite H in L. destruct L as (n & Hlog & _ & Hall).
  exists n. split; [exact Hlog|].
  intros E. rewrite Hlog, (Hall E). reflexivity.
Qed.

Lemma DownloadRemoteImage_calls_in_order_witness :
  remote_image_local_instance.log
    (remote_image_local_instance._DownloadRemoteImage
       remote_image_local_instance.env_fine
       "aosp_cf_x86_phone-userdebug" "5046769" "/big/x"
       remote_image_local_instance.world_big).2
  = [remote_image_local_instance.CreateClient;
     remote_image_local_instance.DownloadArtifact
       "aosp_cf_x86_phone-userdebug" "5046769" "cvd-host_package.tar.gz"
       "/big/x/cvd-host_package.tar.gz";
     remote_image_local_instance.Decompress
       "/big/x/cvd-host_package.tar.gz" "/big/x";
     remote_image_local_instance.Remove "/big/x/cvd-host_package.tar.gz";
     remote_image_local_instance.DownloadArtifact
       "aosp_cf_x86_phone-userdebug" "5046769"
       "aosp_cf_x86_phone-img-5046769.zip"
       "/big/x/aosp_cf_x86_phone-img-5046769.zip";
     remote_image_local_instance.Decompress
       "/big/x/aosp_cf_x86_phone-img-5046769.zip" "/big/x";
     remote_image_local_instance.Remove
       "/big/x/aosp_cf_x86_phone-img-5046769.zip"].
Proof.
  destruct (DownloadRemoteImage_calls_in_order
              remote_image_local_instance.env_fine
              "aosp_cf_x86_phone-userdebug" "5046769" "/big/x"
              remote_image_local_instance.world_big
              (remote_image_local_instance._DownloadRemoteImage
                 remote_image_local_instance.env_fine
                 "aosp_cf_x86_phone-userdebug" "5046769" "/big/x"
                 remote_image_local_instance.world_big).2
              (Ok tt)
              ltac:(vm_compute; reflexivity)) as (n & _ & Hall).
  exact (Hall eq_refl).
Defined.

Section pipeline_success.
Import remote_image_local_instance RemoteImageLocalInstance.
Variable env : Env.

(** What a call that creates the extraction directory and returns has
    done. *)
Lemma DownloadAndProcessImageFiles_fresh (avd_spec : AVDSpec) (w w' : World)
    (path : string) :
  let extract_path := extract_path_of avd_spec in
  files w !! extract_path = None ->
  _DownloadAndProcessImageFiles env avd_spec w = (Ok path, w') ->
  path = extract_path
  /\ log w'
     = (log w ++ [Makedirs extract_path]
        ++ download_calls (build_target (remote_image avd_spec))
             (build_id (remote_image avd_spec)) extract_path
        ++ [CheckCall (UNPACK_BOOTIMG_CMD
                         (os_path.join extract_path [_BOOT_IMAGE]) extract_path)]
        ++ acl_calls extract_path _CF_IMAGES)%list
  /\ is_Some (files w' !! os_path.join extract_path [_BOOT_IMAGE])
  /\ Forall (fun image => is_Some (files w' !! os_path.join extract_path [image]))
       _CF_IMAGES.
Proof.
  cbv zeta. intros P H. rewrite DownloadAndProcessImageFiles_steps in H by exact P.
  cbv zeta in H.
  destruct (makedirs_denied env (extract_path_of avd_spec)); [discriminate|].
  set (w1 := {| files := _; stdin := _; log := _ |}) in H.
  pose proof (DownloadRemoteImage_calls env (build_target (remote_image avd_spec))
                (build_id (remote_image avd_spec)) (extract_path_of avd_spec) w1)
    as D.
  destruct (_DownloadRemoteImage env _ _ _ w1) as [[[]|e] w2]; [|discriminate].
  destruct D as (n & Hlog2 & _ & Hn). rewrite (Hn eq_refl) in Hlog2.
  rewrite UnpackBootImage_run in H. cbv zeta in H.
  destruct (files w2 !! os_path.join (extract_path_of avd_spec) [_BOOT_IMAGE])
    as [k|] eqn:B; [|discriminate].
  destruct (returncode env _ =? 0); [|discriminate].
  set (w3 := {| files := _; stdin := _; log := _ |}) in H.
  destruct (_AclCfImageFiles env (extract_path_of avd_spec) w3)
    as [[[]|e] w4] eqn:A; [|discriminate].
  inversion H; subst path w4. clear H.
  apply acl_loop_prefix in A as (processed & rest & E & -> & HF & Hrest).
  rewrite (Hrest eq_refl), app_nil_r in E. subst processed.
  split; [reflexivity|]. split; [|split].
  - simpl. rewrite Hlog2. simpl. rewrite <- !app_assoc. reflexivity.
  - simpl. erewrite lookup_union_Some_l; eauto.
  - exact HF.
Qed.

(** After a call, the extraction directory is there unless it could not be
    created. *)
Lemma DownloadAndProcessImageFiles_leaves_dir (avd_spec : AVDSpec)
    (w w' : World) (r : Result string) :
  let extract_path := extract_path_of avd_spec in
  is_Some (files w !! extract_path) \/ makedirs_denied env extract_path = false ->
  _DownloadAndProcessImageFiles env avd_spec w = (r, w') ->
  is_Some (files w' !! extract_path).
Proof.
  cbv zeta. intros [HP|HM] H.
  - rewrite DownloadAndProcessImageFiles_present in H by exact HP.
    now inversion H; subst.
  - destruct (files w !! extract_path_of avd_spec) as [k|] eqn:P.
    { rewrite DownloadAndProcessImageFiles_present in H by eauto.
      inversion H; subst. rewrite P. eauto. }
    rewrite DownloadAndProcessImageFiles_steps in H by exact P.
    cbv zeta in H. rewrite HM in H.
    set (w1 := {| files := _; stdin := _; log := _ |}) in H.
    assert (D1 : files w1 !! extract_path_of avd_spec = Some Dir)
      by apply lookup_insert_eq.
    destruct (_DownloadRemoteImage env _ _ _ w1) as [[[]|e] w2] eqn:E2.
    2:{ inversion H; subst. erewrite keeps_DownloadRemoteImage; eauto. }
    assert (D2 : files w2 !! extract_path_of avd_spec = Some Dir)
      by (eapply keeps_DownloadRemoteImage; eauto).
    destruct (_UnpackBootImage env _ w2) as [[[]|e] w3] eqn:E3.
    2:{ inversion H; subst. erewrite keeps_UnpackBootImage; eauto. }
    assert (D3 : files w3 !! extract_path_of avd_spec = Some Dir)
      by (eapply keeps_UnpackBootImage; eauto).
    assert (D4 : forall r4 w4,
               _AclCfImageFiles env (extract_path_of avd_spec) w3 = (r4, w4) ->
               files w4 !! extract_path_of avd_spec = Some Dir)
      by (intros; eapply keeps_AclCfImageFiles; eauto).
    destruct (_AclCfImageFiles env _ w3) as [[[]|e] w4];
      inversion H; subst; erewrite D4; eauto.
Qed.

End pipeline_success.

(** X13: a call of [_DownloadAndProcessImageFiles] that finds no extraction
    directory and returns has made, in this order and with nothing between:
    the creation of the directory, the seven calls of the download, the
    unpacking of [boot.img], and the ACL command of each of the seven image
    files. *)
Theorem DownloadAndProcessImageFiles_calls
    (env : remote_image_local_instance.Env)
    (avd_spec : remote_image_local_instance.AVDSpec)
    (w w' : remote_image_local_instance.World) (path : string) :
  let extract_path := remote_image_local_instance.extract_path_of avd_spec in
  remote_image_local_instance.files w !! extract_path = None ->
  remote_image_local_instance._DownloadAndProcessImageFiles env avd_spec w
  = (Ok path, w') ->
  remote_image_local_instance.log w'
  = (remote_image_local_instance.log w
     ++ [remote_image_local_instance.Makedirs extract_path]
     ++ RemoteImageLocalInstance.download_calls
          (remote_image_local_instance.build_target
             (remote_image_local_instance.remote_image avd_spec))
          (remote_image_local_instance.build_id
             (remote_image_local_instance.remote_image avd_spec))
          extract_path
     ++ [remote_image_local_instance.CheckCall
           (remote_image_local_instance.UNPACK_BOOTIMG_CMD
              (os_path.join extract_path ["boot.img"]) extract_path)]
     ++ remote_image_local_instance.acl_calls extract_path
          ["cache.img"; "cmdline"; "kernel"; "ramdisk.img"; "system.img";
           "userdata.img"; "vendor.img"])%list.
Proof.
  cbv zeta. intros P H.
  now destruct (DownloadAndProcessImageFiles_fresh env avd_spec w w' path P H)
    as (_ & L & _).
Qed.

Lemma DownloadAndProcessImageFiles_calls_witness :
  List.length
    (remote_image_local_instance.log
       (remote_image_local_instance._DownloadAndProcessImageFiles
          remote_image_local_instance.env_fine
          remote_image_local_instance.avd_spec_5046769
          remote_image_local_instance.world_big).2) = 16%nat.
Proof.
  rewrite (DownloadAndProcessImageFiles_calls
             remote_image_local_instance.env_fine
             remote_image_local_instance.avd_spec_5046769
             remote_image_local_instance.world_big
             (remote_image_local_instance._DownloadAndProcessImageFiles
                remote_image_local_instance.env_fine
                remote_image_local_instance.avd_spec_5046769
                remote_image_local_instance.world_big).2
             "/big/acloud_image_artifacts/5046769").
  - vm_compute. reflexivity.
  - vm_compute. reflexivity.
  - vm_compute. reflexivity.
Defined.

(** X14: a call of [_DownloadAndProcessImageFiles] that finds no extraction
    directory returns only when [boot.img] and the seven image files are in
    the directory it returns. *)
Theorem DownloadAndProcessImageFiles_complete
    (env : remote_image_local_instance.Env)
    (avd_spec : remote_image_local_instance.AVDSpec)
    (w w' : remote_image_local_instance.World) (path : string) :
  remote_image_local_instance.files w
    !! remote_image_local_instance.extract_path_of avd_spec = None ->
  remote_image_local_instance._DownloadAndProcessImageFiles env avd_spec w
  = (Ok path, w') ->
  Forall (fun name =>
            is_Some (remote_image_local_instance.files w'
                       !! os_path.join path [name]))
    ["boot.img"; "cache.img"; "cmdline"; "kernel"; "ramdisk.img"; "system.img";
     "userdata.img"; "vendor.img"].
Proof.
  intros P H.
  destruct (DownloadAndProcessImageFiles_fresh env avd_spec w w' path P H)
    as (-> & _ & B & F).
  constructor; [exact B|exact F].
Qed.

Lemma DownloadAndProcessImageFiles_complete_witness :
  Forall (fun name =>
            is_Some (remote_image_local_instance.files
                       (remote_image_local_instance._DownloadAndProcessImageFiles
                          remote_image_local_instance.env_fine
                          remote_image_local_instance.avd_spec_5046769
                          remote_image_local_instance.world_big).2
                       !! os_path.join "/big/acloud_image_artifacts/5046769"
                            [name]))
    ["boot.img"; "cache.img"; "cmdline"; "kernel"; "ramdisk.img"; "system.img";
     "userdata.img"; "vendor.img"].
Proof.
  apply (DownloadAndProcessImageFiles_complete
           remote_image_local_instance.env_fine
           remote_image_local_instance.avd_spec_5046769
           remote_image_local_instance.world_big).
  - vm_compute. reflexivity.
  - vm_compute. reflexivity.
Defined.

(** X15: whatever the outcome of a call of [_DownloadAndProcessImageFiles],
    failure included, once the extraction directory exists (it was there or
    could be created) every later call for the same download directory and
    build id returns its path and does nothing: a download that failed is
    not tried again. *)
Theorem DownloadAndProcessImageFiles_no_retry
    (env env' : remote_image_local_instance.Env)
    (avd_spec avd_spec' : remote_image_local_instance.AVDSpec)
    (w w1 : remote_image_local_instance.World) (r : Result string) :
  let extract_path := remote_image_local_instance.extract_path_of avd_spec in
  is_Some (remote_image_local_instance.files w !! extract_path)
  \/ remote_image_local_instance.makedirs_denied env extract_path = false ->
  remote_image_local_instance._DownloadAndProcessImageFiles env avd_spec w
  = (r, w1) ->
  remote_image_local_instance.image_download_dir avd_spec'
  = remote_image_local_instance.image_download_dir avd_spec ->
  remote_image_local_instance.build_id
    (remote_image_local_instance.remote_image avd_spec')
  = remote_image_local_instance.build_id
      (remote_image_local_instance.remote_image avd_spec) ->
  remote_image_local_instance._DownloadAndProcessImageFiles env' avd_spec' w1
  = (Ok extract_path, w1).
Proof.
  cbv zeta. intros HD H Hdir Hid.
  pose proof (DownloadAndProcessImageFiles_leaves_dir env avd_spec w w1 r HD H)
    as L.
  assert (E : remote_image_local_instance.extract_path_of avd_spec'
              = remote_image_local_instance.extract_path_of avd_spec).
  { unfold remote_image_local_instance.extract_path_of. now rewrite Hdir, Hid. }
  rewrite <- E in *. now apply DownloadAndProcessImageFiles_present.
Qed.

Lemma DownloadAndProcessImageFiles_no_retry_witness :
  let first :=
    remote_image_local_instance._DownloadAndProcessImageFiles
      remote_image_local_instance.env_download_fails
      remote_image_local_instance.avd_spec_5046769
      remote_image_local_instance.world_big in
  first.1 = Raise (ExternalError "DownloadArtifact")
  /\ remote_image_local_instance._DownloadAndProcessImageFiles
       remote_image_local_instance.env_fine
       remote_image_local_instance.avd_spec_5046769 first.2
     = (Ok "/big/acloud_image_artifacts/5046769", first.2).
Proof.
  cbv zeta. split; [vm_compute; reflexivity|].
  apply (DownloadAndProcessImageFiles_no_retry
           remote_image_local_instance.env_download_fails
           remote_image_local_instance.env_fine
           remote_image_local_instance.avd_spec_5046769
           remote_image_local_instance.avd_spec_5046769
           remote_image_local_instance.world_big _
           (Raise (ExternalError "DownloadArtifact"))).
  - right. reflexivity.
  - vm_compute. reflexivity.
  - reflexivity.
  - reflexivity.
Defined.



(** ** More on CreateInstance *)

Section CreateInstance_more.
Import cvd_compute_client.
Variable env : Env.
Variable self : CvdComputeClient.
Variables (instance image_name : string) (image_project : option string).
Variables (build_target branch build_id : string).
Variables (kernel_branch kernel_build_id : option string).

Local Abbreviation create blank :=
  (CreateInstance env self instance image_name image_project build_target
     branch build_id kernel_branch kernel_build_id blank).

(** The request of a call, in full. *)
Lemma CreateInstance_request (blank : option Z) r requests request :
  create blank = (r, requests) ->
  In request requests ->
  exists image base_size size dpi x_res y_res fetched sized,
    GetImage env image_name image_project = Ok image
    /\ pystr.int (diskSizeGb image) = Ok base_size
    /\ blank = Some size
    /\ pystr.split "x" (_resolution self) !! 3%nat = Some dpi
    /\ pystr.split "x" (_resolution self) !! 0%nat = Some x_res
    /\ pystr.split "x" (_resolution self) !! 1%nat = Some y_res
    /\ fetched
       = (let metadata :=
            <["cvd_01_fetch_android_bid" := branch ++ "/" ++ build_id]>
              (<["cvd_01_fetch_android_build_target" := build_target]>
                 (<["cvd_01_dpi" := dpi]> (_metadata self))) in
          match kernel_branch, kernel_build_id with
          | Some kb, Some kid =>
              if (truthy kernel_branch && truthy kernel_build_id)%bool
              then <["cvd_01_fetch_kernel_bid" := kb ++ "/" ++ kid]> metadata
              else metadata
          | _, _ => metadata
          end)
    /\ sized
       = (let metadata :=
            <["cvd_01_y_res" := y_res]>
              (<["cvd_01_x_res" := x_res]>
                 (<["cvd_01_launch" := "1"]> fetched)) in
          if 0 <? size
          then <["cvd_01_blank_data_disk_size" := pystr.str (size * 1024)]>
                 (<["cvd_01_data_policy" := DATA_POLICY_CREATE_IF_MISSING]>
                    metadata)
          else metadata)
    /\ match _ssh_public_key_path self with
       | Some path =>
           if truthy (Some path)
           then exists rsa,
                  _LoadSshPublicKey env path = Ok rsa
                  /\ req_metadata request
                     = <["sshKeys" := getuser env ++ ":" ++ rsa]> sized
           else req_metadata request = sized
       | None => req_metadata request = sized
       end
    /\ req_instance request = instance
    /\ req_image_name request = image_name
    /\ req_image_project request = image_project
    /\ req_machine_type request = _machine_type self
    /\ req_network request = _network self
    /\ req_zone request = _zone self
    /\ requests = [request]
    /\ r = ComputeClient_CreateInstance env request.
Proof.
  unfold CreateInstance, _GetDiskArgs, getitem.
  destruct (_CheckMachineSize env) as [[]|e0]; simpl;
    [|intros H; inversion H; subst; contradiction].
  destruct (GetImage env image_name image_project) as [image|e1]; simpl;
    [|intros H; inversion H; subst; contradiction].
  destruct (pystr.int (diskSizeGb image)) as [base_size|e2] eqn:Hint; simpl;
    [|intros H; inversion H; subst; contradiction].
  destruct blank as [size|]; simpl;
    [|intros H; inversion H; subst; contradiction].
  destruct (pystr.split "x" (_resolution self) !! 3%nat) as [dpi|]; simpl;
    [|intros H; inversion H; subst; contradiction].
  destruct (pystr.split "x" (_resolution self) !! 0%nat) as [x_res|]; simpl;
    [|intros H; inversion H; subst; contradiction].
  destruct (pystr.split "x" (_resolution self) !! 1%nat) as [y_res|]; simpl;
    [|intros H; inversion H; subst; contradiction].
  match goal with
  | |- context [<["cvd_01_launch" := "1"]> ?m] => set (fetched := m)
  end.
  set (sized := if 0 <? size then _ else _).
  assert (Hsized : exists metadata, sized = Ok metadata
            /\ metadata
               = if 0 <? size
                 then <["cvd_01_blank_data_disk_size" := pystr.str (size * 1024)]>
                        (<["cvd_01_data_policy" := DATA_POLICY_CREATE_IF_MISSING]>
                           (<["cvd_01_y_res" := y_res]>
                              (<["cvd_01_x_res" := x_res]>
                                 (<["cvd_01_launch" := "1"]> fetched))))
                 else <["cvd_01_y_res" := y_res]>
                        (<["cvd_01_x_res" := x_res]>
                           (<["cvd_01_launch" := "1"]> fetched))).
  { subst sized. destruct (0 <? size); eexists; split; reflexivity. }
  destruct Hsized as (metadata & -> & Hm). simpl.
  destruct (_ssh_public_key_path self) as [path|] eqn:Hpath.
  - simpl. destruct (negb (pystr.is_empty path)) eqn:T; simpl.
    + destruct (_LoadSshPublicKey env path) as [rsa|e3] eqn:Hload; simpl;
        [|intros H; inversion H; subst; contradiction].
      intros H Hin. inversion H; subst r requests. destruct Hin as [<-|[]].
      simpl. exists image, base_size, size, dpi, x_res, y_res, fetched, metadata.
      repeat (split; [reflexivity || assumption|]).
      split; [eauto|]. repeat (split; [reflexivity|]). reflexivity.
    + intros H Hin. inversion H; subst r requests. destruct Hin as [<-|[]].
      simpl. exists image, base_size, size, dpi, x_res, y_res, fetched, metadata.
      repeat (split; [reflexivity || assumption|]). reflexivity.
  - simpl. intros H Hin. inversion H; subst r requests. destruct Hin as [<-|[]].
    simpl. exists image, base_size, size, dpi, x_res, y_res, fetched, metadata.
    repeat (split; [reflexivity || assumption|]). reflexivity.
Qed.

End CreateInstance_more.

Section CreateInstance_metadata.
Import cvd_compute_client.
Variable env : Env.
Variable self : CvdComputeClient.
Variables (instance image_name : string) (image_project : option string).
Variables (build_target branch build_id : string).
Variables (kernel_branch kernel_build_id : option string).
Variable blank : option Z.
Variables (r : Result unit) (requests : list Request) (request : Request).
Hypothesis Hcall :
  CreateInstance env self instance image_name image_project build_target
    branch build_id kernel_branch kernel_build_id blank = (r, requests).
Hypothesis Hin : In request requests.

Ltac open_request :=
  destruct (CreateInstance_request _ _ _ _ _ _ _ _ _ _ _ _ _ _ Hcall Hin)
    as (image & base_size & size & dpi & x_res & y_res & fetched & sized
        & HI & HS & Hb & H3 & H0 & H1 & Hf & Hz & Hk & Hname & Himg & Hproj
        & Hmt & Hnet & Hzone & Hreqs & Hr).

Ltac open_key :=
  match goal with
  | Hk : match _ssh_public_key_path self with _ => _ end |- _ =>
      destruct (_ssh_public_key_path self) as [path|];
      [destruct (truthy (Some path)); [destruct Hk as (rsa & Hload & Hk)|]|];
      rewrite Hk; clear Hk
  end.

Lemma request_data_disk (gb : Z) :
  blank = Some gb ->
  (0 < gb ->
   req_metadata request !! "cvd_01_data_policy" = Some "create_if_missing"
   /\ req_metadata request !! "cvd_01_blank_data_disk_size"
      = Some (pystr.str (gb * 1024)))
  /\ (gb <= 0 ->
      req_metadata request !! "cvd_01_data_policy"
      = _metadata self !! "cvd_01_data_policy"
      /\ req_metadata request !! "cvd_01_blank_data_disk_size"
         = _metadata self !! "cvd_01_blank_data_disk_size").
Proof.
  intros Hgb. open_request. rewrite Hb in Hgb. inversion Hgb; subst gb.
  cbv zeta in Hz, Hf. split; intros Hs.
  - apply Z.ltb_lt in Hs. rewrite Hs in Hz. subst sized.
    open_key; now simplify_map_eq.
  - apply Z.ltb_ge in Hs. rewrite Hs in Hz. subst sized fetched.
    open_key;
      destruct kernel_branch as [kb|], kernel_build_id as [kid|];
      try destruct (truthy (Some kb) && truthy (Some kid))%bool;
      now simplify_map_eq.
Qed.

Lemma request_kernel :
  (forall kb kid,
      kernel_branch = Some kb -> kernel_build_id = Some kid ->
      kb <> "" -> kid <> "" ->
      req_metadata request !! "cvd_01_fetch_kernel_bid" = Some (kb ++ "/" ++ kid))
  /\ ((truthy kernel_branch && truthy kernel_build_id)%bool = false ->
      req_metadata request !! "cvd_01_fetch_kernel_bid"
      = _metadata self !! "cvd_01_fetch_kernel_bid").
Proof.
  open_request. cbv zeta in Hz, Hf. split.
  - intros kb kid -> -> Hkb Hkid.
    assert (T : (truthy (Some kb) && truthy (Some kid))%bool = true).
    { destruct kb; [congruence|]. destruct kid; [congruence|]. reflexivity. }
    rewrite T in Hf. subst sized fetched.
    open_key; destruct (0 <? size); now simplify_map_eq.
  - intros T. subst sized fetched.
    open_key; destruct (0 <? size);
      destruct kernel_branch as [kb|], kernel_build_id as [kid|];
      try rewrite T; now simplify_map_eq.
Qed.

Lemma request_fixed :
  req_metadata request !! "cvd_01_launch" = Some "1"
  /\ req_metadata request !! "cvd_01_fetch_android_build_target"
     = Some build_target
  /\ req_metadata request !! "cvd_01_fetch_android_bid"
     = Some (branch ++ "/" ++ build_id).
Proof.
  open_request. cbv zeta in Hz, Hf. subst sized fetched.
  open_key; destruct (0 <? size);
    destruct kernel_branch as [kb|], kernel_build_id as [kid|];
    try destruct (truthy (Some kb) && truthy (Some kid))%bool;
    now simplify_map_eq.
Qed.

Lemma request_other_keys (key : string) :
  ~ In key ["cvd_01_dpi"; "cvd_01_fetch_android_build_target";
            "cvd_01_fetch_android_bid"; "cvd_01_fetch_kernel_bid";
            "cvd_01_launch"; "cvd_01_x_res"; "cvd_01_y_res";
            "cvd_01_data_policy"; "cvd_01_blank_data_disk_size"; "sshKeys"] ->
  req_metadata request !! key = _metadata self !! key.
Proof.
  intros Hkey. simpl in Hkey.
  assert (N : forall k, In k ["cvd_01_dpi"; "cvd_01_fetch_android_build_target";
            "cvd_01_fetch_android_bid"; "cvd_01_fetch_kernel_bid";
            "cvd_01_launch"; "cvd_01_x_res"; "cvd_01_y_res";
            "cvd_01_data_policy"; "cvd_01_blank_data_disk_size"; "sshKeys"] ->
            k <> key).
  { intros k Hk' ->. simpl in Hk'. tauto. }
  open_request. cbv zeta in Hz, Hf. subst sized fetched.
  open_key; destruct (0 <? size);
    destruct kernel_branch as [kb|], kernel_build_id as [kid|];
    try destruct (truthy (Some kb) && truthy (Some kid))%bool;
    rewrite ?lookup_insert_ne by (apply N; simpl; tauto); reflexivity.
Qed.

Lemma request_ssh_key :
  (forall path,
      _ssh_public_key_path self = Some path -> path <> "" ->
      exists rsa,
        _LoadSshPublicKey env path = Ok rsa
        /\ req_metadata request !! "sshKeys" = Some (getuser env ++ ":" ++ rsa))
  /\ (truthy (_ssh_public_key_path self) = false ->
      req_metadata request !! "sshKeys" = _metadata self !! "sshKeys").
Proof.
  open_request. cbv zeta in Hz, Hf. split.
  - intros path Hp Hne. rewrite Hp in Hk.
    assert (T : truthy (Some path) = true) by (destruct path; [congruence|reflexivity]).
    rewrite T in Hk. destruct Hk as (rsa & Hload & ->).
    exists rsa. split; [exact Hload|]. now simplify_map_eq.
  - intros T. destruct (_ssh_public_key_path self) as [path|];
      [rewrite T in Hk|]; rewrite Hk; subst sized fetched;
      destruct (0 <? size);
      destruct kernel_branch as [kb|], kernel_build_id as [kid|];
      try destruct (truthy (Some kb) && truthy (Some kid))%bool;
      now simplify_map_eq.
Qed.

End CreateInstance_metadata.

(** X17: in a creation request that [CreateInstance] submits, a blank data
    disk of more than 0 GB sets the data policy to "create_if_missing" and
    the disk size to the GB times 1024; a size of 0 or less sets neither
    key, which are then as in the client's base metadata. *)
Theorem CreateInstance_data_disk
    (env : cvd_compute_client.Env) (self : cvd_compute_client.CvdComputeClient)
    (instance image_name : string) (image_project : option string)
    (build_target branch build_id : string)
    (kernel_branch kernel_build_id : option string)
    (blank_data_disk_size_gb : Z)
    (r : Result unit) (requests : list cvd_compute_client.Request)
    (request : cvd_compute_client.Request) :
  cvd_compute_client.CreateInstance env self instance image_name image_project
    build_target branch build_id kernel_branch kernel_build_id
    (Some blank_data_disk_size_gb) = (r, requests) ->
  In request requests ->
  (0 < blank_data_disk_size_gb ->
   cvd_compute_client.req_metadata request !! "cvd_01_data_policy"
   = Some "create_if_missing"
   /\ cvd_compute_client.req_metadata request !! "cvd_01_blank_data_disk_size"
      = Some (pystr.str (blank_data_disk_size_gb * 1024)))
  /\ (blank_data_disk_size_gb <= 0 ->
      cvd_compute_client.req_metadata request !! "cvd_01_data_policy"
      = cvd_compute_client._metadata self !! "cvd_01_data_policy"
      /\ cvd_compute_client.req_metadata request
           !! "cvd_01_blank_data_disk_size"
         = cvd_compute_client._metadata self !! "cvd_01_blank_data_disk_size").
Proof.
  intros H Hin. eapply request_data_disk; eauto.
Qed.

Lemma CreateInstance_data_disk_witness :
  let requests :=
    (cvd_compute_client.CreateInstance cvd_compute_client.env_accepting
       cvd_compute_client.client_1280x800 "ins-1" "cf-image" None
       "aosp_cf_x86_phone-userdebug" "aosp-master" "5046769" None None
       (Some 4)).2 in
  exists request,
    requests = [request]
    /\ cvd_compute_client.req_metadata request !! "cvd_01_data_policy"
       = Some "create_if_missing"
    /\ cvd_compute_client.req_metadata request !! "cvd_01_blank_data_disk_size"
       = Some "4096".
Proof.
  cbv zeta.
  destruct (cvd_compute_client.CreateInstance _ _ _ _ _ _ _ _ _ _ _)
    as [r requests] eqn:E.
  assert (L : List.length requests = 1%nat).
  { apply (f_equal snd) in E. simpl in E. rewrite <- E. vm_compute. reflexivity. }
  destruct requests as [|request [|]]; try discriminate L.
  exists request. split; [reflexivity|].
  apply (proj1 (CreateInstance_data_disk _ _ _ _ _ _ _ _ _ _ _ _ _ _ E
                  (or_introl eq_refl))).
  lia.
Defined.

(** X18: the kernel fetch reference [cvd_01_fetch_kernel_bid] of a submitted
    request is "<kernel branch>/<kernel build id>" when both are given and
    not empty; when either is missing or empty the key is not set and is as
    in the client's base metadata. *)
Theorem CreateInstance_kernel_fetch
    (env : cvd_compute_client.Env) (self : cvd_compute_client.CvdComputeClient)
    (instance image_name : string) (image_project : option string)
    (build_target branch build_id : string)
    (kernel_branch kernel_build_id : option string)
    (blank_data_disk_size_gb : option Z)
    (r : Result unit) (requests : list cvd_compute_client.Request)
    (request : cvd_compute_client.Request) :
  cvd_compute_client.CreateInstance env self instance image_name image_project
    build_target branch build_id kernel_branch kernel_build_id
    blank_data_disk_size_gb = (r, requests) ->
  In request requests ->
  (forall kb kid,
      kernel_branch = Some kb -> kernel_build_id = Some kid ->
      kb <> "" -> kid <> "" ->
      cvd_compute_client.req_metadata request !! "cvd_01_fetch_kernel_bid"
      = Some (kb ++ "/" ++ kid))
  /\ ((kernel_branch = None \/ kernel_branch = Some ""
       \/ kernel_build_id = None \/ kernel_build_id = Some "") ->
      cvd_compute_client.req_metadata request !! "cvd_01_fetch_kernel_bid"
      = cvd_compute_client._metadata self !! "cvd_01_fetch_kernel_bid").
Proof.
  intros H Hin.
  destruct (request_kernel _ _ _ _ _ _ _ _ _ _ _ _ _ _ H Hin) as [H1 H2].
  split; [exact H1|]. intros Hno. apply H2.
  destruct Hno as [-> | [-> | [-> | ->]]]; try reflexivity;
    destruct kernel_branch as [[|]|]; reflexivity.
Qed.

Lemma CreateInstance_kernel_fetch_witness :
  let requests :=
    (cvd_compute_client.CreateInstance cvd_compute_client.env_accepting
       cvd_compute_client.client_1280x800 "ins-1" "cf-image" None
       "aosp_cf_x86_phone-userdebug" "aosp-master" "5046769"
       (Some "kernel-android-cf-4.4-x86_64") (Some "2263051") (Some 4)).2 in
  exists request,
    requests = [request]
    /\ cvd_compute_client.req_metadata request !! "cvd_01_fetch_kernel_bid"
       = Some "kernel-android-cf-4.4-x86_64/2263051".
Proof.
  cbv zeta.
  destruct (cvd_compute_client.CreateInstance _ _ _ _ _ _ _ _ _ _ _)
    as [r requests] eqn:E.
  assert (L : List.length requests = 1%nat).
  { apply (f_equal snd) in E. simpl in E. rewrite <- E. vm_compute. reflexivity. }
  destruct requests as [|request [|]]; try discriminate L.
  exists request. split; [reflexivity|].
  apply (proj1 (CreateInstance_kernel_fetch _ _ _ _ _ _ _ _ _ _ _ _ _ _ E
                  (or_introl eq_refl))
           "kernel-android-cf-4.4-x86_64" "2263051");
    reflexivity || discriminate.
Defined.

(** X19: the metadata of a submitted request is the client's base metadata
    with keys set on top: the launch flag is "1", the build target and
    "<branch>/<build id>" are recorded, and every key that [CreateInstance]
    does not set has the value it has in the base metadata. *)
Theorem CreateInstance_metadata_merge
    (env : cvd_compute_client.Env) (self : cvd_compute_client.CvdComputeClient)
    (instance image_name : string) (image_project : option string)
    (build_target branch build_id : string)
    (kernel_branch kernel_build_id : option string)
    (blank_data_disk_size_gb : option Z)
    (r : Result unit) (requests : list cvd_compute_client.Request)
    (request : cvd_compute_client.Request) :
  cvd_compute_client.CreateInstance env self instance image_name image_project
    build_target branch build_id kernel_branch kernel_build_id
    blank_data_disk_size_gb = (r, requests) ->
  In request requests ->
  cvd_compute_client.req_metadata request !! "cvd_01_launch" = Some "1"
  /\ cvd_compute_client.req_metadata request
       !! "cvd_01_fetch_android_build_target" = Some build_target
  /\ cvd_compute_client.req_metadata request !! "cvd_01_fetch_android_bid"
     = Some (branch ++ "/" ++ build_id)
  /\ (forall key,
         ~ In key ["cvd_01_dpi"; "cvd_01_fetch_android_build_target";
                   "cvd_01_fetch_android_bid"; "cvd_01_fetch_kernel_bid";
                   "cvd_01_launch"; "cvd_01_x_res"; "cvd_01_y_res";
                   "cvd_01_data_policy"; "cvd_01_blank_data_disk_size";
                   "sshKeys"] ->
         cvd_compute_client.req_metadata request !! key
         = cvd_compute_client._metadata self !! key).
Proof.
  intros H Hin.
  destruct (request_fixed _ _ _ _ _ _ _ _ _ _ _ _ _ _ H Hin) as (F1 & F2 & F3).
  repeat (split; [assumption|]).
  intros key Hkey. eapply request_other_keys; eauto.
Qed.

Lemma CreateInstance_metadata_merge_witness :
  let requests :=
    (cvd_compute_client.CreateInstance cvd_compute_client.env_accepting
       cvd_compute_client.client_1280x800 "ins-1" "cf-image" None
       "aosp_cf_x86_phone-userdebug" "aosp-master" "5046769" None None
       (Some 4)).2 in
  exists request,
    requests = [request]
    /\ cvd_compute_client.req_metadata request !! "cvd_01_fetch_android_bid"
       = Some "aosp-master/5046769".
Proof.
  cbv zeta.
  destruct (cvd_compute_client.CreateInstance _ _ _ _ _ _ _ _ _ _ _)
    as [r requests] eqn:E.
  assert (L : List.length requests = 1%nat).
  { apply (f_equal snd) in E. simpl in E. rewrite <- E. vm_compute. reflexivity. }
  destruct requests as [|request [|]]; try discriminate L.
  exists request. split; [reflexivity|].
  now destruct (CreateInstance_metadata_merge _ _ _ _ _ _ _ _ _ _ _ _ _ _ E
                  (or_introl eq_refl)) as (_ & _ & B & _).
Defined.

(** X20: with an SSH public key path configured, a request is submitted
    only if the key could be read, and its [sshKeys] entry is
    "<local user>:<key>"; with none configured (no path, or an empty one)
    the key file is not needed and [sshKeys] is as in the base metadata. *)
Theorem CreateInstance_ssh_key
    (env : cvd_compute_client.Env) (self : cvd_compute_client.CvdComputeClient)
    (instance image_name : string) (image_project : option string)
    (build_target branch build_id : string)
    (kernel_branch kernel_build_id : option string)
    (blank_data_disk_size_gb : option Z)
    (r : Result unit) (requests : list cvd_compute_client.Request)
    (request : cvd_compute_client.Request) :
  cvd_compute_client.CreateInstance env self instance image_name image_project
    build_target branch build_id kernel_branch kernel_build_id
    blank_data_disk_size_gb = (r, requests) ->
  In request requests ->
  (forall path,
      cvd_compute_client._ssh_public_key_path self = Some path -> path <> "" ->
      exists rsa,
        cvd_compute_client._LoadSshPublicKey env path = Ok rsa
        /\ cvd_compute_client.req_metadata request !! "sshKeys"
           = Some (cvd_compute_client.getuser env ++ ":" ++ rsa))
  /\ ((cvd_compute_client._ssh_public_key_path self = None
       \/ cvd_compute_client._ssh_public_key_path self = Some "") ->
      cvd_compute_client.req_metadata request !! "sshKeys"
      = cvd_compute_client._metadata self !! "sshKeys").
Proof.
  intros H Hin.
  destruct (request_ssh_key _ _ _ _ _ _ _ _ _ _ _ _ _ _ H Hin) as [H1 H2].
  split; [exact H1|]. intros Hno. apply H2.
  destruct Hno as [-> | ->]; reflexivity.
Qed.

Lemma CreateInstance_ssh_key_witness :
  let requests :=
    (cvd_compute_client.CreateInstance cvd_compute_client.env_accepting
       cvd_compute_client.client_1280x800 "ins-1" "cf-image" None
       "aosp_cf_x86_phone-userdebug" "aosp-master" "5046769" None None
       (Some 4)).2 in
  exists request rsa,
    requests = [request]
    /\ cvd_compute_client._LoadSshPublicKey cvd_compute_client.env_accepting
         "/home/user/.ssh/key.pub" = Ok rsa
    /\ cvd_compute_client.req_metadata request !! "sshKeys"
       = Some ("user" ++ ":" ++ rsa).
Proof.
  cbv zeta.
  destruct (cvd_compute_client.CreateInstance _ _ _ _ _ _ _ _ _ _ _)
    as [r requests] eqn:E.
  assert (L : List.length requests = 1%nat).
  { apply (f_equal snd) in E. simpl in E. rewrite <- E. vm_compute. reflexivity. }
  destruct requests as [|request [|]]; try discriminate L.
  destruct (proj1 (CreateInstance_ssh_key _ _ _ _ _ _ _ _ _ _ _ _ _ _ E
                     (or_introl eq_refl))
              "/home/user/.ssh/key.pub") as (rsa & Hload & Hkey);
    [reflexivity|discriminate|].
  exists request, rsa. split; [reflexivity|]. split; [exact Hload|exact Hkey].
Defined.

(** X21: when the machine size check passes, the image is found with a size
    that reads as an integer, the resolution has at least four fields and
    the configured SSH key (if any) can be read, [CreateInstance] with an
    integer [blank_data_disk_size_gb] submits exactly one creation request,
    for the given instance name and image and the client's machine type,
    network and zone, and its result is the backend's answer to that
    request, unchanged. *)
Theorem CreateInstance_submits
    (env : cvd_compute_client.Env) (self : cvd_compute_client.CvdComputeClient)
    (instance image_name : string) (image_project : option string)
    (build_target branch build_id : string)
    (kernel_branch kernel_build_id : option string)
    (blank_data_disk_size_gb : Z)
    (image : cvd_compute_client.Image) (base_size : Z) :
  cvd_compute_client._CheckMachineSize env = Ok tt ->
  cvd_compute_client.GetImage env image_name image_project = Ok image ->
  pystr.int (cvd_compute_client.diskSizeGb image) = Ok base_size ->
  (3 <= pystr.count "x" (cvd_compute_client._resolution self))%nat ->
  (forall path,
      cvd_compute_client._ssh_public_key_path self = Some path -> path <> "" ->
      exists rsa, cvd_compute_client._LoadSshPublicKey env path = Ok rsa) ->
  exists request,
    cvd_compute_client.CreateInstance env self instance image_name
      image_project build_target branch build_id kernel_branch
      kernel_build_id (Some blank_data_disk_size_gb)
    = (cvd_compute_client.ComputeClient_CreateInstance env request, [request])
    /\ cvd_compute_client.req_instance request = instance
    /\ cvd_compute_client.req_image_name request = image_name
    /\ cvd_compute_client.req_image_project request = image_project
    /\ cvd_compute_client.req_machine_type request
       = cvd_compute_client._machine_type self
    /\ cvd_compute_client.req_network request = cvd_compute_client._network self
    /\ cvd_compute_client.req_zone request = cvd_compute_client._zone self.
Proof.
  intros HC HI HS Hres Hkey.
  pose proof (split_length "x" (cvd_compute_client._resolution self)) as L.
  destruct (lookup_lt_is_Some_2
              (pystr.split "x" (cvd_compute_client._resolution self)) 3)
    as [dpi H3]; [lia|].
  destruct (lookup_lt_is_Some_2
              (pystr.split "x" (cvd_compute_client._resolution self)) 0)
    as [x_res H0]; [lia|].
  destruct (lookup_lt_is_Some_2
              (pystr.split "x" (cvd_compute_client._resolution self)) 1)
    as [y_res H1]; [lia|].
  unfold cvd_compute_client.CreateInstance, cvd_compute_client._GetDiskArgs,
    cvd_compute_client.getitem.
  rewrite HC. simpl. rewrite HI. simpl. rewrite HS. simpl.
  rewrite H3. simpl. rewrite H0. simpl. rewrite H1. simpl.
  destruct (0 <? blank_data_disk_size_gb); simpl;
    (destruct (cvd_compute_client._ssh_public_key_path self) as [path|] eqn:P;
     simpl;
     [destruct (negb (pystr.is_empty path)) eqn:T; simpl;
      [destruct (Hkey path eq_refl) as [rsa ->];
       [destruct path; [discriminate|congruence]|]; simpl|]|]);
    eexists; (split; [reflexivity|]); simpl; auto 10.
Qed.

Lemma CreateInstance_submits_witness :
  exists request,
    cvd_compute_client.CreateInstance cvd_compute_client.env_accepting
      cvd_compute_client.client_1280x800 "ins-1" "cf-image" None
      "aosp_cf_x86_phone-userdebug" "aosp-master" "5046769" None None (Some 4)
    = (Ok tt, [request])
    /\ cvd_compute_client.req_instance request = "ins-1"
    /\ cvd_compute_client.req_zone request = "us-central1-f".
Proof.
  destruct (CreateInstance_submits cvd_compute_client.env_accepting
              cvd_compute_client.client_1280x800 "ins-1" "cf-image" None
              "aosp_cf_x86_phone-userdebug" "aosp-master" "5046769" None None 4
              {| cvd_compute_client.selfLink := "projects/p/global/images/cf-image";
                 cvd_compute_client.diskSizeGb := "10" |} 10)
    as (request & H & Hname & _ & _ & _ & _ & Hzone).
  - reflexivity.
  - reflexivity.
  - reflexivity.
  - simpl. lia.
  - intros path _ _. exists "ssh-rsa AAAA". reflexivity.
  - exists request. split; [exact H|]. split; [exact Hname|exact Hzone].
Defined.

(** X22: with a resolution string of fewer than four "x"-separated fields,
    [CreateInstance] submits no creation request; when the steps before the
    metadata succeed (machine size check, image lookup, integer disk sizes)
    it ends in the [IndexError] of reading field 3. *)
Theorem CreateInstance_short_resolution
    (env : cvd_compute_client.Env) (self : cvd_compute_client.CvdComputeClient)
    (instance image_name : string) (image_project : option string)
    (build_target branch build_id : string)
    (kernel_branch kernel_build_id : option string)
    (blank_data_disk_size_gb : option Z) :
  (pystr.count "x" (cvd_compute_client._resolution self) < 3)%nat ->
  (cvd_compute_client.CreateInstance env self instance image_name
     image_project build_target branch build_id kernel_branch
     kernel_build_id blank_data_disk_size_gb).2 = []
  /\ (forall image base_size size,
         cvd_compute_client._CheckMachineSize env = Ok tt ->
         cvd_compute_client.GetImage env image_name image_project = Ok image ->
         pystr.int (cvd_compute_client.diskSizeGb image) = Ok base_size ->
         blank_data_disk_size_gb = Some size ->
         (cvd_compute_client.CreateInstance env self instance image_name
            image_project build_target branch build_id kernel_branch
            kernel_build_id blank_data_disk_size_gb).1 = Raise IndexError).
Proof.
  intros Hres.
  pose proof (split_length "x" (cvd_compute_client._resolution self)) as L.
  assert (H3 : pystr.split "x" (cvd_compute_client._resolution self) !! 3%nat
               = None) by (apply lookup_ge_None; lia).
  split.
  - destruct (cvd_compute_client.CreateInstance _ _ _ _ _ _ _ _ _ _ _)
      as [r requests] eqn:E.
    simpl. destruct requests as [|request requests]; [reflexivity|].
    destruct (CreateInstance_request _ _ _ _ _ _ _ _ _ _ _ _ _ _ E
                (or_introl eq_refl))
      as (image & base_size & size & dpi & x_res & y_res & fetched & sized
          & _ & _ & _ & H3' & _).
    rewrite H3 in H3'. discriminate.
  - intros image base_size size HC HI HS ->.
    unfold cvd_compute_client.CreateInstance, cvd_compute_client._GetDiskArgs,
      cvd_compute_client.getitem.
    rewrite HC. simpl. rewrite HI. simpl. rewrite HS. simpl.
    rewrite H3. reflexivity.
Qed.

Lemma CreateInstance_short_resolution_witness :
  cvd_compute_client.CreateInstance cvd_compute_client.env_accepting
    (cvd_compute_client.with_resolution cvd_compute_client.client_1280x800
       "1280x800x240")
    "ins-1" "cf-image" None "aosp_cf_x86_phone-userdebug" "aosp-master"
    "5046769" None None (Some 4)
  = (Raise IndexError, []).
Proof.
  destruct (CreateInstance_short_resolution cvd_compute_client.env_accepting
              (cvd_compute_client.with_resolution
                 cvd_compute_client.client_1280x800 "1280x800x240")
              "ins-1" "cf-image" None "aosp_cf_x86_phone-userdebug"
              "aosp-master" "5046769" None None (Some 4))
    as [Hreq Herr]; [simpl; lia|].
  specialize (Herr {| cvd_compute_client.selfLink :=
                        "projects/p/global/images/cf-image";
                      cvd_compute_client.diskSizeGb := "10" |} 10 4
                eq_refl eq_refl eq_refl eq_refl).
  destruct (cvd_compute_client.CreateInstance _ _ _ _ _ _ _ _ _ _ _)
    as [r requests].
  simpl in Hreq, Herr. now subst.
Defined.
